(** * Order-flow renderer: a shallow embedding of [plot_order_flow]

    Source: notebooks/Hasbrouck_Market_Microstructure/order_book_simulations/utilities.py

    The Python function is a straight-line script that computes a few lists
    from the order book and hands them to matplotlib.  It is embedded here as
    a computation in a small monad that records every matplotlib call in a
    trace and may stop with a Python exception.

    Modelling choices
    - times, prices, volumes and the entries of the trade sequences are
      Python integers (as in the docstring's example), hence [Z];
    - the true division [v / max_volume] is modelled by the exact rational
      quotient, kept in lowest terms so that equal values are equal terms;
    - an order-book entry [[time, price, volume, side]] is a record, the side
      being the string the code compares with ['ask'] and ['bid'];
    - an optional argument is an [option]; Python truthiness of an optional
      list ([None] and [[]] are both falsy) is [truthy];
    - a call to matplotlib is an entry of the trace, with the arguments the
      code passes; of matplotlib's own behaviour only the check [scatter]
      makes on the length of its size argument is modelled, because it
      decides whether lines 86-91 are reached. *)

From Stdlib Require Import ZArith QArith Qreduction List String Bool Lia.
From Stdlib Require Import Sorting.Mergesort Sorting.Permutation Sorting.Sorted.
From Stdlib Require Import Orders.
Import ListNotations.

Local Open Scope Z_scope.
Local Open Scope string_scope.
Local Open Scope list_scope.

(** ** Python exceptions and the rendering monad *)

(** A raised exception: the name of its class and its message. *)
Record exn : Type := Raise {
  exn_class : string;
  exn_msg : string
}.

(** The two builtin exceptions the function can end with.  The function
    defines no exception class of its own and has no [raise] statement. *)
Definition ValueError (msg : string) : exn := Raise "ValueError" msg.
Definition ZeroDivisionError (msg : string) : exn := Raise "ZeroDivisionError" msg.

(** Result of a pure Python expression that may raise. *)
Definition res (A : Type) : Type := (exn + A)%type.

Inductive color : Type := blue | red | grey | yellow | orange | green.

(** One matplotlib call, with the data-dependent arguments the code passes.
    Constant keyword arguments (width=1, alpha, linestyle, ...) are left out. *)
Inductive artist : Type :=
| Subplots
| Bar (x : Z) (height : Q) (bottom : Z) (c : color)
| Axhline (y : Z)
| FillBetween (x1 x2 : Q) (y1 y2 : Z)
| SetXlabel (s : string)
| SetYlabel (s : string)
| SetTitle (s : string)
| SetXlim (lo hi : Z)
| Plot (x y : list Z)
| Scatter (x y s : list Z) (c : color)
| Show.

(** A rendering computation: the trace of matplotlib calls made so far is
    threaded through, and the computation ends with a value or an exception. *)
Definition Plt (A : Type) : Type := list artist -> list artist * res A.

Definition ret {A} (a : A) : Plt A := fun tr => (tr, inr a).

Definition bind {A B} (m : Plt A) (k : A -> Plt B) : Plt B :=
  fun tr =>
    match m tr with
    | (tr', inr a) => k a tr'
    | (tr', inl e) => (tr', inl e)
    end.

Definition lift {A} (r : res A) : Plt A := fun tr => (tr, r).

Definition draw (a : artist) : Plt unit := fun tr => (tr ++ [a], inr tt).

Notation "x <- m ;; k" := (bind m (fun x => k))
  (at level 61, m at next level, right associativity).
Notation "' pat <- m ;; k" := (bind m (fun x => match x with pat => k end))
  (at level 61, pat pattern, m at next level, right associativity).
Notation "m ;;; k" := (bind m (fun _ => k))
  (at level 61, right associativity).

(** [for a in l: body a] *)
Fixpoint for_each {A} (l : list A) (body : A -> Plt unit) : Plt unit :=
  match l with
  | [] => ret tt
  | a :: l' => body a ;;; for_each l' body
  end.

(** Running a computation from the empty figure. *)
Definition run {A} (m : Plt A) : list artist * res A := m [].

(** ** Python builtins used by the function *)

Module Py.

(** [max(l)] and [min(l)] on a sequence of integers. *)
Definition max (l : list Z) : res Z :=
  match l with
  | [] => inl (ValueError "max() arg is an empty sequence")
  | x :: l' => inr (fold_left Z.max l' x)
  end.

Definition min (l : list Z) : res Z :=
  match l with
  | [] => inl (ValueError "min() arg is an empty sequence")
  | x :: l' => inr (fold_left Z.min l' x)
  end.

(** Unpacking the star-zip of a list of triples into three names: it fails
    when the list is empty, because [zip()] then yields nothing. *)
Definition unzip3 (l : list (Z * Z * Z)) : res (list Z * list Z * list Z) :=
  match l with
  | [] => inl (ValueError "not enough values to unpack (expected 3, got 0)")
  | _ => inr (map (fun d => fst (fst d)) l,
              map (fun d => snd (fst d)) l,
              map snd l)
  end.

Definition unzip2 (l : list (Z * Z)) : res (list Z * list Z) :=
  match l with
  | [] => inl (ValueError "not enough values to unpack (expected 2, got 0)")
  | _ => inr (map fst l, map snd l)
  end.

(** [zip(a, b)] stops at the shorter sequence: this is [List.combine]. *)
Definition zip {A B} (a : list A) (b : list B) : list (A * B) := combine a b.

Fixpoint zip3 {A B C} (a : list A) (b : list B) (c : list C)
  : list (A * B * C) :=
  match a, b, c with
  | x :: a', y :: b', z :: c' => (x, y, z) :: zip3 a' b' c'
  | _, _, _ => []
  end.

(** [enumerate(l)], counting from [i]. *)
Fixpoint enumerate_from {A} (i : Z) (l : list A) : list (Z * A) :=
  match l with
  | [] => []
  | a :: l' => (i, a) :: enumerate_from (i + 1) l'
  end.

Definition enumerate {A} (l : list A) : list (Z * A) := enumerate_from 0 l.

(** [set(l)]: the distinct elements (iteration order is irrelevant here,
    every use is under [sorted]). *)
Definition set (l : list Z) : list Z := nodup Z.eq_dec l.

Module ZOrder <: TotalLeBool.
Definition t := Z.
Definition leb := Z.leb.
Theorem leb_total : forall x y, leb x y = true \/ leb y x = true.
Proof. intros x y; unfold leb; destruct (Z.leb_spec x y); auto; right; apply Z.leb_le; lia. Qed.
End ZOrder.

Module ZSort := Sort ZOrder.

(** [sorted(l)] on integers. *)
Definition sorted (l : list Z) : list Z := ZSort.sort l.

(** [a / b], true division of two integers.  The quotient is taken to fit a
    float, as it does whenever [0 <= a <= b]: the [OverflowError] Python
    raises for a quotient beyond the double range is not modelled. *)
Definition truediv (a b : Z) : res Q :=
  if (b =? 0)%Z then inl (ZeroDivisionError "division by zero")
  else inr (Qred (inject_Z a / inject_Z b)).

(** A list comprehension whose element expression may raise: the first
    failing element aborts the comprehension. *)
Fixpoint comprehension {A B} (f : A -> res B) (l : list A) : res (list B) :=
  match l with
  | [] => inr []
  | a :: l' =>
      match f a with
      | inl e => inl e
      | inr b =>
          match comprehension f l' with
          | inl e => inl e
          | inr bs => inr (b :: bs)
          end
      end
  end.

(** Truthiness of an optional list argument. *)
Definition truthy {A} (o : option (list A)) : bool :=
  match o with
  | Some (_ :: _) => true
  | _ => false
  end.

End Py.

(** ** The order book *)

(** One entry [[time, price, volume, side]] of a snapshot. *)
Record Level : Type := mkLevel {
  time : Z;
  price : Z;
  volume : Z;
  side : string
}.

Definition Snapshot : Type := list Level.

(** Line 30: [[item for sublist in book_state_sequence for item in sublist
    if item[3] == 'ask']]. *)
Definition ask_data (book_state_sequence : list Snapshot) : list Level :=
  flat_map (fun sublist => filter (fun item => (side item =? "ask")%string) sublist)
           book_state_sequence.

(** Line 31, the same for ['bid']. *)
Definition bid_data (book_state_sequence : list Snapshot) : list Level :=
  flat_map (fun sublist => filter (fun item => (side item =? "bid")%string) sublist)
           book_state_sequence.

(** Lines 34-35: the list of [(d[0], d[1], d[2])]. *)
Definition triples (data : list Level) : list (Z * Z * Z) :=
  map (fun d => (time d, price d, volume d)) data.

(** Lines 61-62: [[p for time, p in zip(times, prices) if time == t]]. *)
Definition prices_at (times prices : list Z) (t : Z) : list Z :=
  map snd (filter (fun tp => (fst tp =? t)%Z) (Py.zip times prices)).

(** Lines 60-67: the body of the loop over [unique_times].  The bounds
    [t - 1/2] and [t + 1/2] are the exact half-integers; these are the values
    the floating-point operations give as long as [|t| < 2^52]. *)
Definition fill_spread (ask_times ask_prices bid_times bid_prices : list Z)
  (t : Z) : Plt unit :=
  let ask_prices_at_t := prices_at ask_times ask_prices t in
  let bid_prices_at_t := prices_at bid_times bid_prices t in
  match ask_prices_at_t, bid_prices_at_t with
  | _ :: _, _ :: _ =>
      min_ask_price <- lift (Py.min ask_prices_at_t) ;;
      max_bid_price <- lift (Py.max bid_prices_at_t) ;;
      draw (FillBetween (Qred (inject_Z t - (1 # 2))%Q) (Qred (inject_Z t + (1 # 2))%Q)
                        max_bid_price min_ask_price)
  | _, _ => ret tt
  end.

(** The check [Axes.scatter] makes on its size argument before it draws
    anything: [s] must have one element or as many as [x]; otherwise the call
    raises a [ValueError] and adds nothing to the figure. *)
Definition accepted_length (n k : nat) : bool :=
  (k =? 1)%nat || (k =? n)%nat.

Definition scatter (x y s : list Z) (c : color) : Plt unit :=
  if accepted_length (List.length x) (List.length s)
  then draw (Scatter x y s c)
  else lift (inl (ValueError
         "s must be a scalar, or float array-like with the same size as x and y")).

(** Lines 80-87: the price line and the trade markers. *)
Definition plot_prices
  (price_sequence volumes_sequence buy_sequence sell_sequence : option (list Z))
  : Plt unit :=
  match price_sequence with
  | Some ((_ :: _) as ps) =>
      '(x, y) <- lift (Py.unzip2
                         (map (fun iv => (fst iv + 1, snd iv)%Z) (Py.enumerate ps))) ;;
      draw (Plot x y) ;;;
      match volumes_sequence, buy_sequence, sell_sequence with
      | Some ((_ :: _) as vs), Some ((_ :: _) as bs), Some ((_ :: _) as ss) =>
          scatter x y
                  (map (fun val => val * 20)%Z
                       (map (fun vb => fst vb * snd vb)%Z (Py.zip vs bs)))
                  green ;;;
          scatter x y
                  (map (fun val => val * 20)%Z
                       (map (fun vs' => fst vs' * snd vs')%Z (Py.zip vs ss)))
                  red
      | _, _, _ => ret tt
      end
  | _ => ret tt
  end.

(** ** The function *)

Definition plot_order_flow (book_state_sequence : list Snapshot)
  (price_sequence volumes_sequence buy_sequence sell_sequence : option (list Z))
  : Plt unit :=
  let ask_data := ask_data book_state_sequence in
  let bid_data := bid_data book_state_sequence in
  '(ask_times, ask_prices, ask_volumes) <- lift (Py.unzip3 (triples ask_data)) ;;
  '(bid_times, bid_prices, bid_volumes) <- lift (Py.unzip3 (triples bid_data)) ;;
  max_ask <- lift (Py.max ask_volumes) ;;
  max_bid <- lift (Py.max bid_volumes) ;;
  let max_volume := Z.max max_ask max_bid in
  norm_ask_volumes <-
    lift (Py.comprehension (fun v => Py.truediv v max_volume) ask_volumes) ;;
  norm_bid_volumes <-
    lift (Py.comprehension (fun v => Py.truediv v max_volume) bid_volumes) ;;
  draw Subplots ;;;
  for_each (Py.zip3 ask_times ask_prices norm_ask_volumes)
           (fun tpv => draw (Bar (fst (fst tpv)) (snd tpv) (snd (fst tpv)) blue)) ;;;
  for_each (Py.zip3 bid_times bid_prices norm_bid_volumes)
           (fun tpv => draw (Bar (fst (fst tpv)) (- snd tpv)%Q (snd (fst tpv)) red)) ;;;
  let prices := Py.sorted (Py.set (ask_prices ++ bid_prices)) in
  for_each prices (fun price => draw (Axhline price)) ;;;
  let unique_times := Py.sorted (Py.set (ask_times ++ bid_times)) in
  for_each unique_times (fill_spread ask_times ask_prices bid_times bid_prices) ;;;
  draw (SetXlabel "Time") ;;;
  draw (SetYlabel "Price") ;;;
  draw (SetTitle "Order Flow") ;;;
  lo <- lift (Py.min (ask_times ++ bid_times)) ;;
  hi <- lift (Py.max (ask_times ++ bid_times)) ;;
  draw (SetXlim lo hi) ;;;
  plot_prices price_sequence volumes_sequence buy_sequence sell_sequence ;;;
  draw Show.

(** The docstring-style book of the specification's example scenario. *)
Definition example_book : list Snapshot :=
  [ [ mkLevel 1 101 2 "ask"; mkLevel 1 99 5 "bid" ];
    [ mkLevel 2 101 4 "ask"; mkLevel 2 99 5 "bid" ] ].

(** ** Reading a trace

    The claims speak about what is drawn; these projections read the calls of
    one kind back from a trace. *)

Definition color_eqb (c d : color) : bool :=
  match c, d with
  | blue, blue | red, red | grey, grey
  | yellow, yellow | orange, orange | green, green => true
  | _, _ => false
  end.

(** Heights of the bars of colour [c], in drawing order. *)
Definition bar_heights (c : color) (tr : list artist) : list Q :=
  flat_map (fun a => match a with
                     | Bar _ h _ c' => if color_eqb c c' then [h] else []
                     | _ => []
                     end) tr.

(** Prices at which a horizontal line is drawn, in drawing order. *)
Definition gridlines (tr : list artist) : list Z :=
  flat_map (fun a => match a with Axhline y => [y] | _ => [] end) tr.

(** The filled regions [(x1, x2, y1, y2)], in drawing order. *)
Definition fills (tr : list artist) : list (Q * Q * Z * Z) :=
  flat_map (fun a => match a with
                     | FillBetween x1 x2 y1 y2 => [(x1, x2, y1, y2)]
                     | _ => []
                     end) tr.

(** The marker sizes of the scatter calls of colour [c]. *)
Definition marker_sizes (c : color) (tr : list artist) : list (list Z) :=
  flat_map (fun a => match a with
                     | Scatter _ _ s c' => if color_eqb c c' then [s] else []
                     | _ => []
                     end) tr.

(** The horizontal extent of the fill for time step [t] (line 67). *)
Definition fill_x (t : Z) : Q * Q :=
  (Qred (inject_Z t - (1 # 2)), Qred (inject_Z t + (1 # 2))).

(** ** Derived quantities of a book *)

(** Line 38: [max(max(ask_volumes), max(bid_volumes))]. *)
Definition max_volume (book_state_sequence : list Snapshot) : res Z :=
  match Py.max (map volume (ask_data book_state_sequence)) with
  | inl e => inl e
  | inr a =>
      match Py.max (map volume (bid_data book_state_sequence)) with
      | inl e => inl e
      | inr b => inr (Z.max a b)
      end
  end.

(** Lines 39-40 once [max_volume] is known to be non-zero. *)
Definition normalise (m : Z) (data : list Level) : list Q :=
  map (fun d => Qred (inject_Z (volume d) / inject_Z m)) data.

(** What one successful iteration of the loop of lines 60-67 draws. *)
Definition spread_at (asks bids : list Level) (t : Z) : list artist :=
  match map price (filter (fun d => (time d =? t)%Z) asks),
        map price (filter (fun d => (time d =? t)%Z) bids) with
  | a :: la, b :: lb =>
      [FillBetween (fst (fill_x t)) (snd (fill_x t))
                   (fold_left Z.max lb b) (fold_left Z.min la a)]
  | _, _ => []
  end.

(** Lines 42-76 for a book whose normalisation succeeded with [m]. *)
Definition book_chart (asks bids : list Level) (m lo hi : Z) : list artist :=
  [Subplots]
  ++ map (fun d => Bar (time d) (Qred (inject_Z (volume d) / inject_Z m))
                       (price d) blue) asks
  ++ map (fun d => Bar (time d) (- Qred (inject_Z (volume d) / inject_Z m))
                       (price d) red) bids
  ++ map Axhline (Py.sorted (Py.set (map price asks ++ map price bids)))
  ++ flat_map (spread_at asks bids)
              (Py.sorted (Py.set (map time asks ++ map time bids)))
  ++ [SetXlabel "Time"; SetYlabel "Price"; SetTitle "Order Flow"; SetXlim lo hi].

(** Lines 80-87 as the list of calls they make, and how they end. *)
Definition overlay
  (price_sequence volumes_sequence buy_sequence sell_sequence : option (list Z))
  : list artist :=
  fst (plot_prices price_sequence volumes_sequence buy_sequence sell_sequence []).

Definition overlay_outcome
  (price_sequence volumes_sequence buy_sequence sell_sequence : option (list Z))
  : res unit :=
  snd (plot_prices price_sequence volumes_sequence buy_sequence sell_sequence []).

(** Line 91 is reached only when lines 80-87 did not raise. *)
Definition closing
  (price_sequence volumes_sequence buy_sequence sell_sequence : option (list Z))
  : list artist :=
  match overlay_outcome price_sequence volumes_sequence buy_sequence sell_sequence with
  | inr _ => [Show]
  | inl _ => []
  end.

(** Everything that follows the chart of the book in the trace. *)
Definition after_book
  (price_sequence volumes_sequence buy_sequence sell_sequence : option (list Z))
  : list artist :=
  overlay price_sequence volumes_sequence buy_sequence sell_sequence
  ++ closing price_sequence volumes_sequence buy_sequence sell_sequence.

(** A Level of a given side occurs somewhere in the book. *)
Definition in_book (d : Level) (book_state_sequence : list Snapshot) : Prop :=
  exists snapshot, In snapshot book_state_sequence /\ In d snapshot.

Definition is_ask (d : Level) : Prop := side d = "ask".
Definition is_bid (d : Level) : Prop := side d = "bid".

(** The flattened Level list of a book. *)
Definition flatten (book_state_sequence : list Snapshot) : list Level :=
  List.concat book_state_sequence.

(** The book without the Levels whose tag is neither ['ask'] nor ['bid']. *)
Definition drop_untagged (book_state_sequence : list Snapshot) : list Snapshot :=
  map (filter (fun d => (side d =? "ask")%string || (side d =? "bid")%string))
      book_state_sequence.

Definition has_ask (book_state_sequence : list Snapshot) : Prop :=
  exists d, in_book d book_state_sequence /\ is_ask d.

Definition has_bid (book_state_sequence : list Snapshot) : Prop :=
  exists d, in_book d book_state_sequence /\ is_bid d.



(** A fill for time step [t] with vertical bounds [y1] and [y2] is drawn. *)
Definition fill_emitted (tr : list artist) (t y1 y2 : Z) : Prop :=
  In (fst (fill_x t), snd (fill_x t), y1, y2) (fills tr).

(** [y] is the largest price among the bid Levels of time step [t]. *)
Definition best_bid (book_state_sequence : list Snapshot) (t y : Z) : Prop :=
  (exists d, in_book d book_state_sequence /\ is_bid d /\ time d = t /\ price d = y)
  /\ forall d, in_book d book_state_sequence -> is_bid d -> time d = t -> price d <= y.

(** [y] is the smallest price among the ask Levels of time step [t]. *)
Definition best_ask (book_state_sequence : list Snapshot) (t y : Z) : Prop :=
  (exists d, in_book d book_state_sequence /\ is_ask d /\ time d = t /\ price d = y)
  /\ forall d, in_book d book_state_sequence -> is_ask d -> time d = t -> y <= price d.

(** The call is one of the plotting calls of the trade overlay. *)
Definition is_overlay (a : artist) : bool :=
  match a with
  | Plot _ _ | Scatter _ _ _ _ => true
  | _ => false
  end.

(** The inputs the specification lists as failure conditions of the book,
    each with the exception the call ends with. *)
Inductive rejected (book_state_sequence : list Snapshot) : exn -> Prop :=
| rejected_empty :
    book_state_sequence = [] ->
    rejected book_state_sequence
      (ValueError "not enough values to unpack (expected 3, got 0)")
| rejected_no_ask :
    ~ has_ask book_state_sequence ->
    rejected book_state_sequence
      (ValueError "not enough values to unpack (expected 3, got 0)")
| rejected_no_bid :
    ~ has_bid book_state_sequence ->
    rejected book_state_sequence
      (ValueError "not enough values to unpack (expected 3, got 0)")
| rejected_zero_volume :
    has_ask book_state_sequence ->
    has_bid book_state_sequence ->
    (forall d, in_book d book_state_sequence -> volume d = 0) ->
    rejected book_state_sequence (ZeroDivisionError "division by zero").

(** The marker sizes of lines 86-87 for a volume and a flag sequence. *)
Definition sizes (volumes flags : list Z) : list Z :=
  map (fun val => val * 20)
      (map (fun vf => fst vf * snd vf) (Py.zip volumes flags)).

(** A book with both sides whose volumes are all zero. *)
Definition zero_book : list Snapshot :=
  [ [ mkLevel 1 101 0 "ask"; mkLevel 1 99 0 "bid" ] ].

(** Where the bars of colour [c] stand: [(x, bottom)], in drawing order. *)
Definition bar_anchors (c : color) (tr : list artist) : list (Z * Z) :=
  flat_map (fun a => match a with
                     | Bar x _ b c' => if color_eqb c c' then [(x, b)] else []
                     | _ => []
                     end) tr.

(** The limits given to [set_xlim]. *)
Definition xlims (tr : list artist) : list (Z * Z) :=
  flat_map (fun a => match a with SetXlim lo hi => [(lo, hi)] | _ => [] end) tr.

(** The coordinate lists of the [plot] calls. *)
Definition price_lines (tr : list artist) : list (list Z * list Z) :=
  flat_map (fun a => match a with Plot x y => [(x, y)] | _ => [] end) tr.

(** The coordinate lists of the [scatter] calls of colour [c]. *)
Definition marker_points (c : color) (tr : list artist) : list (list Z * list Z) :=
  flat_map (fun a => match a with
                     | Scatter x y _ c' => if color_eqb c c' then [(x, y)] else []
                     | _ => []
                     end) tr.

(** The horizontal extents of the fills, in drawing order. *)
Definition fill_extents (tr : list artist) : list (Q * Q) :=
  map (fun f => (fst (fst (fst f)), snd (fst (fst f)))) (fills tr).

(** A time step whose neighbouring half-integers are exact doubles. *)
Definition half_steps_exact (t : Z) : Prop := Z.abs t < 2 ^ 52.

(** The step numbers 1, 2, ..., n. *)
Definition steps (n : nat) : list Z := map Z.of_nat (seq 1 n).

(** The book with every volume multiplied by [k]. *)
Definition scale_level (k : Z) (d : Level) : Level :=
  mkLevel (time d) (price d) (k * volume d) (side d).

Definition scale_volumes (k : Z) (book_state_sequence : list Snapshot)
  : list Snapshot :=
  map (map (scale_level k)) book_state_sequence.

(** * Properties *)

(** ** The monad and the loops *)

Lemma bind_ret_l {A B} (a : A) (k : A -> Plt B) tr :
  bind (ret a) k tr = k a tr.
Proof. reflexivity. Qed.

Lemma bind_lift_ok {A B} (a : A) (k : A -> Plt B) tr :
  bind (lift (inr a)) k tr = k a tr.
Proof. reflexivity. Qed.

Lemma bind_lift_err {A B} (e : exn) (k : A -> Plt B) tr :
  bind (lift (inl e)) k tr = (tr, inl e).
Proof. reflexivity. Qed.

Lemma bind_draw {B} (a : artist) (k : unit -> Plt B) tr :
  bind (draw a) k tr = k tt (tr ++ [a]).
Proof. reflexivity. Qed.

Lemma bind_ok {A B} (m : Plt A) (k : A -> Plt B) tr tr' a :
  m tr = (tr', inr a) -> bind m k tr = k a tr'.
Proof. intros H; unfold bind; now rewrite H. Qed.

Lemma for_each_draw {A} (f : A -> artist) (l : list A) tr :
  for_each l (fun a => draw (f a)) tr = (tr ++ map f l, inr tt).
Proof.
  revert tr; induction l as [|a l IH]; intros tr; cbn [for_each map].
  - unfold ret; now rewrite app_nil_r.
  - rewrite bind_draw, IH, <- app_assoc; reflexivity.
Qed.

Lemma for_each_pure {A} (body : A -> Plt unit) (g : A -> list artist)
  (l : list A) tr :
  (forall a tr0, body a tr0 = (tr0 ++ g a, inr tt)) ->
  for_each l body tr = (tr ++ flat_map g l, inr tt).
Proof.
  intros Hb; revert tr; induction l as [|a l IH]; intros tr; cbn [for_each flat_map].
  - unfold ret; now rewrite app_nil_r.
  - rewrite (bind_ok _ _ _ _ _ (Hb a tr)), IH, <- app_assoc; reflexivity.
Qed.

(** ** The builtins *)

Lemma unzip3_triples (l : list Level) :
  l <> [] ->
  Py.unzip3 (triples l) = inr (map time l, map price l, map volume l).
Proof.
  destruct l as [|d l]; [congruence|intros _].
  unfold triples, Py.unzip3; cbn [map].
  rewrite !map_map; reflexivity.
Qed.

Lemma comprehension_truediv (m : Z) (l : list Level) :
  m <> 0 ->
  Py.comprehension (fun v => Py.truediv v m) (map volume l) = inr (normalise m l).
Proof.
  intros Hm; induction l as [|d l IH]; cbn; [reflexivity|].
  unfold Py.truediv at 1.
  destruct (Z.eqb_spec m 0) as [E|_]; [contradiction|].
  cbn in IH; rewrite IH; reflexivity.
Qed.

Lemma comprehension_truediv_zero (l : list Z) :
  l <> [] ->
  Py.comprehension (fun v => Py.truediv v 0) l
  = inl (ZeroDivisionError "division by zero").
Proof. destruct l; [congruence|reflexivity]. Qed.

Lemma zip3_maps {A B C D} (f : A -> B) (g : A -> C) (h : A -> D) (l : list A) :
  Py.zip3 (map f l) (map g l) (map h l) = map (fun a => (f a, g a, h a)) l.
Proof. induction l as [|a l IH]; cbn; [reflexivity|now rewrite IH]. Qed.

Lemma prices_at_maps (l : list Level) (t : Z) :
  prices_at (map time l) (map price l) t
  = map price (filter (fun d => (time d =? t)%Z) l).
Proof.
  unfold prices_at, Py.zip.
  induction l as [|d l IH]; cbn; [reflexivity|].
  destruct (time d =? t)%Z; cbn; now rewrite IH.
Qed.

Lemma py_max_cons (x : Z) (l : list Z) :
  Py.max (x :: l) = inr (fold_left Z.max l x).
Proof. reflexivity. Qed.

Lemma py_max_ok (l : list Z) : l <> [] -> exists m, Py.max l = inr m.
Proof. destruct l; [congruence|intros _; eexists; reflexivity]. Qed.

Lemma py_min_ok (l : list Z) : l <> [] -> exists m, Py.min l = inr m.
Proof. destruct l; [congruence|intros _; eexists; reflexivity]. Qed.

Lemma fold_max_spec (l : list Z) (x : Z) :
  In (fold_left Z.max l x) (x :: l)
  /\ forall z, In z (x :: l) -> z <= fold_left Z.max l x.
Proof.
  revert x; induction l as [|y l IH]; intros x; cbn [fold_left].
  - split; [now left|]. intros z [<-|[]]; lia.
  - destruct (IH (Z.max x y)) as [Hin Hub]; split.
    + destruct Hin as [E|Hin]; [|right; now right].
      rewrite <- E. destruct (Z.max_spec x y) as [[_ ->]|[_ ->]];
        [right; now left|now left].
    + intros z [E|[E|Hz]].
      * specialize (Hub (Z.max x y) (or_introl eq_refl)); lia.
      * specialize (Hub (Z.max x y) (or_introl eq_refl)); lia.
      * apply Hub; now right.
Qed.

Lemma fold_min_spec (l : list Z) (x : Z) :
  In (fold_left Z.min l x) (x :: l)
  /\ forall z, In z (x :: l) -> fold_left Z.min l x <= z.
Proof.
  revert x; induction l as [|y l IH]; intros x; cbn [fold_left].
  - split; [now left|]. intros z [<-|[]]; lia.
  - destruct (IH (Z.min x y)) as [Hin Hlb]; split.
    + destruct Hin as [E|Hin]; [|right; now right].
      rewrite <- E. destruct (Z.min_spec x y) as [[_ ->]|[_ ->]];
        [now left|right; now left].
    + intros z [E|[E|Hz]].
      * specialize (Hlb (Z.min x y) (or_introl eq_refl)); lia.
      * specialize (Hlb (Z.min x y) (or_introl eq_refl)); lia.
      * apply Hlb; now right.
Qed.

Lemma sorted_set_perm (l : list Z) :
  Permutation (Py.sorted (Py.set l)) (nodup Z.eq_dec l).
Proof. unfold Py.sorted, Py.set; symmetry; apply Py.ZSort.Permuted_sort. Qed.

Lemma sorted_set_NoDup (l : list Z) : NoDup (Py.sorted (Py.set l)).
Proof.
  eapply Permutation_NoDup; [symmetry; apply sorted_set_perm|apply NoDup_nodup].
Qed.

Lemma sorted_set_In (l : list Z) (z : Z) :
  In z (Py.sorted (Py.set l)) <-> In z l.
Proof.
  rewrite <- (nodup_In Z.eq_dec l z); split; apply Permutation_in;
    [|symmetry]; apply sorted_set_perm.
Qed.

(** ** What a call draws *)

Lemma fill_spread_run (asks bids : list Level) (t : Z) tr :
  fill_spread (map time asks) (map price asks) (map time bids) (map price bids) t tr
  = (tr ++ spread_at asks bids t, inr tt).
Proof.
  unfold fill_spread, spread_at; rewrite !prices_at_maps.
  destruct (map price (filter _ asks)) as [|a la];
    [unfold ret; now rewrite app_nil_r|].
  destruct (map price (filter _ bids)) as [|b lb];
    [unfold ret; now rewrite app_nil_r|].
  reflexivity.
Qed.

Lemma bind_run {A B} (m : Plt A) (k : A -> Plt B) tr tr' r :
  m tr = (tr', r) ->
  bind m k tr = match r with
                | inr a => k a tr'
                | inl e => (tr', inl e)
                end.
Proof. intros H; unfold bind; rewrite H; destruct r; reflexivity. Qed.

Lemma scatter_run (x y sz : list Z) (c : color) tr :
  scatter x y sz c tr
  = if accepted_length (List.length x) (List.length sz)
    then (tr ++ [Scatter x y sz c], inr tt)
    else (tr, inl (ValueError
            "s must be a scalar, or float array-like with the same size as x and y")).
Proof. unfold scatter; destruct (accepted_length _ _); reflexivity. Qed.

Lemma plot_prices_run ps vs bs ss tr :
  plot_prices ps vs bs ss tr
  = (tr ++ overlay ps vs bs ss, overlay_outcome ps vs bs ss).
Proof.
  unfold overlay, overlay_outcome, plot_prices.
  destruct ps as [[|p ps]|]; try (unfold ret; cbn; now rewrite app_nil_r).
  cbn [Py.unzip2 Py.enumerate Py.enumerate_from map].
  rewrite !bind_lift_ok; cbv beta iota; rewrite !bind_draw.
  destruct vs as [[|v vs]|]; try (unfold ret; reflexivity).
  destruct bs as [[|b bs]|]; try (unfold ret; reflexivity).
  destruct ss as [[|s ss]|]; try (unfold ret; reflexivity).
  unfold bind; rewrite !scatter_run.
  destruct (accepted_length _ _); [|reflexivity].
  rewrite !scatter_run.
  destruct (accepted_length _ _); cbn [fst snd app];
    rewrite <- ?app_assoc; reflexivity.
Qed.

Lemma max_volume_inv (book : list Snapshot) (m : Z) :
  max_volume book = inr m ->
  exists a b,
    Py.max (map volume (ask_data book)) = inr a
    /\ Py.max (map volume (bid_data book)) = inr b
    /\ m = Z.max a b
    /\ ask_data book <> [] /\ bid_data book <> [].
Proof.
  unfold max_volume.
  destruct (ask_data book) as [|d1 l1]; [discriminate|].
  destruct (bid_data book) as [|d2 l2]; [discriminate|].
  cbn; intros [= <-]; do 2 eexists; repeat split; congruence.
Qed.

Lemma max_volume_ok (book : list Snapshot) :
  ask_data book <> [] -> bid_data book <> [] -> exists m, max_volume book = inr m.
Proof.
  unfold max_volume; intros Ha Hb.
  destruct (ask_data book); [congruence|].
  destruct (bid_data book); [congruence|].
  eexists; reflexivity.
Qed.

(** A book with both sides and a non-zero largest volume is drawn in full. *)
Lemma plot_order_flow_run (book : list Snapshot) ps vs bs ss (m : Z) :
  max_volume book = inr m -> m <> 0 ->
  exists lo hi,
    Py.min (map time (ask_data book) ++ map time (bid_data book)) = inr lo
    /\ Py.max (map time (ask_data book) ++ map time (bid_data book)) = inr hi
    /\ run (plot_order_flow book ps vs bs ss)
       = (book_chart (ask_data book) (bid_data book) m lo hi
            ++ after_book ps vs bs ss, overlay_outcome ps vs bs ss).
Proof.
  intros Hm Hnz.
  destruct (max_volume_inv _ _ Hm) as (a & b & Ha & Hb & -> & Hasks & Hbids).
  assert (Ht : map time (ask_data book) ++ map time (bid_data book) <> []).
  { destruct (ask_data book); [congruence|discriminate]. }
  destruct (py_min_ok _ Ht) as [lo Hlo], (py_max_ok _ Ht) as [hi Hhi].
  exists lo, hi; repeat split; trivial.
  unfold run, plot_order_flow.
  rewrite (unzip3_triples _ Hasks), bind_lift_ok.
  rewrite (unzip3_triples _ Hbids), bind_lift_ok.
  rewrite Ha, bind_lift_ok, Hb, bind_lift_ok.
  rewrite !(comprehension_truediv _ _ Hnz), !bind_lift_ok.
  rewrite bind_draw.
  unfold normalise; rewrite !zip3_maps.
  rewrite (bind_ok _ _ _ _ _ (for_each_draw _ _ _)).
  rewrite (bind_ok _ _ _ _ _ (for_each_draw _ _ _)).
  rewrite (bind_ok _ _ _ _ _ (for_each_draw _ _ _)).
  rewrite (bind_ok _ _ _ _ _
             (for_each_pure _ (spread_at (ask_data book) (bid_data book)) _ _
                            (fill_spread_run _ _))).
  rewrite !bind_draw, Hlo, bind_lift_ok, Hhi, bind_lift_ok, bind_draw.
  rewrite (bind_run _ _ _ _ _ (plot_prices_run _ _ _ _ _)).
  unfold after_book, closing, draw, book_chart; rewrite !map_map; cbn [fst snd].
  destruct (overlay_outcome ps vs bs ss) as [e|[]];
    rewrite <- ?app_assoc, ?app_nil_r; reflexivity.
Qed.

(** Without an ask Level, or without a bid Level, the unpacking of line 34
    or 35 fails and nothing has been drawn. *)
Lemma plot_order_flow_missing_side (book : list Snapshot) ps vs bs ss :
  ask_data book = [] \/ bid_data book = [] ->
  run (plot_order_flow book ps vs bs ss)
  = ([], inl (ValueError "not enough values to unpack (expected 3, got 0)")).
Proof.
  unfold run, plot_order_flow; intros [H|H].
  - rewrite H; reflexivity.
  - destruct (ask_data book) eqn:E; [reflexivity|].
    rewrite unzip3_triples by discriminate.
    rewrite bind_lift_ok, H; reflexivity.
Qed.

(** With both sides present and a largest volume of zero, the division of
    line 39 fails and nothing has been drawn. *)
Lemma plot_order_flow_zero_volume (book : list Snapshot) ps vs bs ss :
  max_volume book = inr 0 ->
  run (plot_order_flow book ps vs bs ss)
  = ([], inl (ZeroDivisionError "division by zero")).
Proof.
  intros Hm.
  destruct (max_volume_inv _ _ Hm) as (a & b & Ha & Hb & E & Hasks & Hbids).
  unfold run, plot_order_flow.
  rewrite (unzip3_triples _ Hasks), bind_lift_ok.
  rewrite (unzip3_triples _ Hbids), bind_lift_ok.
  rewrite Ha, bind_lift_ok, Hb, bind_lift_ok, <- E.
  rewrite comprehension_truediv_zero; [reflexivity|].
  destruct (ask_data book); [congruence|discriminate].
Qed.

(** ** The two sides of a book *)

Lemma flat_map_filter {A} (p : A -> bool) (ll : list (list A)) :
  flat_map (filter p) ll = filter p (List.concat ll).
Proof.
  induction ll as [|l ll IH]; cbn; [reflexivity|].
  now rewrite IH, filter_app.
Qed.

Lemma ask_data_flatten (book : list Snapshot) :
  ask_data book = filter (fun item => (side item =? "ask")%string) (flatten book).
Proof. apply flat_map_filter. Qed.

Lemma bid_data_flatten (book : list Snapshot) :
  bid_data book = filter (fun item => (side item =? "bid")%string) (flatten book).
Proof. apply flat_map_filter. Qed.

Lemma in_flatten (d : Level) (book : list Snapshot) :
  In d (flatten book) <-> in_book d book.
Proof.
  unfold flatten, in_book; rewrite in_concat; split;
    intros (snapshot & H1 & H2); exists snapshot; tauto.
Qed.

Lemma in_ask_data (d : Level) (book : list Snapshot) :
  In d (ask_data book) <-> in_book d book /\ is_ask d.
Proof.
  rewrite ask_data_flatten, filter_In, in_flatten; unfold is_ask.
  now rewrite String.eqb_eq.
Qed.

Lemma in_bid_data (d : Level) (book : list Snapshot) :
  In d (bid_data book) <-> in_book d book /\ is_bid d.
Proof.
  rewrite bid_data_flatten, filter_In, in_flatten; unfold is_bid.
  now rewrite String.eqb_eq.
Qed.

Lemma has_ask_data (book : list Snapshot) : has_ask book <-> ask_data book <> [].
Proof.
  split.
  - intros (d & Hd) E. apply in_ask_data in Hd. rewrite E in Hd; exact Hd.
  - destruct (ask_data book) as [|d l] eqn:E; [congruence|intros _].
    exists d; apply in_ask_data; rewrite E; now left.
Qed.

Lemma has_bid_data (book : list Snapshot) : has_bid book <-> bid_data book <> [].
Proof.
  split.
  - intros (d & Hd) E. apply in_bid_data in Hd. rewrite E in Hd; exact Hd.
  - destruct (bid_data book) as [|d l] eqn:E; [congruence|intros _].
    exists d; apply in_bid_data; rewrite E; now left.
Qed.

Lemma filter_filter {A} (p q : A -> bool) (l : list A) :
  (forall a, p a = true -> q a = true) ->
  filter p (filter q l) = filter p l.
Proof.
  intros Hpq; induction l as [|a l IH]; cbn; [reflexivity|].
  destruct (q a) eqn:Eq; cbn.
  - now rewrite IH.
  - destruct (p a) eqn:Ep; [|exact IH].
    apply Hpq in Ep; congruence.
Qed.

Lemma ask_data_drop_untagged (book : list Snapshot) :
  ask_data (drop_untagged book) = ask_data book.
Proof.
  unfold ask_data, drop_untagged; rewrite flat_map_concat_map, map_map.
  rewrite <- flat_map_concat_map; apply flat_map_ext; intros l.
  apply filter_filter; intros a ->; reflexivity.
Qed.

Lemma bid_data_drop_untagged (book : list Snapshot) :
  bid_data (drop_untagged book) = bid_data book.
Proof.
  unfold bid_data, drop_untagged; rewrite flat_map_concat_map, map_map.
  rewrite <- flat_map_concat_map; apply flat_map_ext; intros l.
  apply filter_filter; intros a ->; apply orb_true_r.
Qed.

(** The function looks at the book only through its two sides. *)
Lemma plot_order_flow_sides (book book' : list Snapshot) ps vs bs ss :
  ask_data book = ask_data book' ->
  bid_data book = bid_data book' ->
  plot_order_flow book ps vs bs ss = plot_order_flow book' ps vs bs ss.
Proof. unfold plot_order_flow; intros -> ->; reflexivity. Qed.

Lemma max_volume_sides (book book' : list Snapshot) :
  ask_data book = ask_data book' ->
  bid_data book = bid_data book' ->
  max_volume book = max_volume book'.
Proof. unfold max_volume; intros -> ->; reflexivity. Qed.

(** ** Reading the chart of a book *)

Lemma flat_map_map {A B C} (f : A -> B) (g : B -> list C) (l : list A) :
  flat_map g (map f l) = flat_map (fun a => g (f a)) l.
Proof. induction l as [|a l IH]; cbn; [reflexivity|now rewrite IH]. Qed.

Lemma flat_map_nil {A C} (l : list A) :
  flat_map (fun _ : A => @nil C) l = [].
Proof. induction l; cbn; trivial. Qed.

Lemma flat_map_all_nil {A C} (f : A -> list C) (l : list A) :
  (forall a, f a = []) -> flat_map f l = [].
Proof. intros H; induction l as [|a l IH]; cbn; [reflexivity|now rewrite H, IH]. Qed.

Lemma flat_map_single {A C} (f : A -> C) (l : list A) :
  flat_map (fun a => [f a]) l = map f l.
Proof. induction l as [|a l IH]; cbn; [reflexivity|now rewrite IH]. Qed.

Lemma flat_map_flat_map {A B C} (f : A -> list B) (g : B -> list C) (l : list A) :
  flat_map g (flat_map f l) = flat_map (fun a => flat_map g (f a)) l.
Proof.
  induction l as [|a l IH]; cbn; [reflexivity|].
  now rewrite flat_map_app, IH.
Qed.

Lemma spread_at_cases (asks bids : list Level) (t : Z) :
  spread_at asks bids t = []
  \/ exists y1 y2, spread_at asks bids t
                   = [FillBetween (fst (fill_x t)) (snd (fill_x t)) y1 y2].
Proof.
  unfold spread_at.
  destruct (map price (filter _ asks)); [now left|].
  destruct (map price (filter _ bids)); [now left|].
  right; eauto.
Qed.

Ltac read_chart :=
  unfold book_chart;
  repeat (rewrite ?flat_map_app, ?flat_map_map, ?flat_map_flat_map;
          cbn [flat_map app color_eqb]);
  rewrite ?flat_map_nil, ?flat_map_single, ?app_nil_r; cbn [app].

Lemma flat_map_nil_in {A C} (f : A -> list C) (l : list A) :
  (forall a, In a l -> f a = []) -> flat_map f l = [].
Proof.
  induction l as [|a l IH]; intros H; cbn; [reflexivity|].
  rewrite (H a (or_introl eq_refl)), IH; [reflexivity|].
  intros x Hx; apply H; now right.
Qed.

(** Lines 80-87 make only [plot] and [scatter] calls. *)
Lemma overlay_artists ps vs bs ss (a : artist) :
  In a (overlay ps vs bs ss) -> is_overlay a = true.
Proof.
  unfold overlay, plot_prices.
  destruct ps as [[|p ps]|]; try (intros []).
  cbn [Py.unzip2 Py.enumerate Py.enumerate_from map].
  rewrite !bind_lift_ok; cbv beta iota; rewrite !bind_draw.
  destruct vs as [[|v vs]|], bs as [[|b bs]|], ss as [[|s ss]|];
    try (cbn; intros [<-|[]]; reflexivity).
  unfold bind; rewrite !scatter_run.
  destruct (accepted_length _ _); [|cbn; intros [<-|[]]; reflexivity].
  rewrite !scatter_run.
  destruct (accepted_length _ _); cbn;
    intros H; repeat (destruct H as [<-|H]; [reflexivity|]); destruct H.
Qed.

(** After the chart of the book come only [plot], [scatter] and [show]. *)
Lemma after_book_artists ps vs bs ss (a : artist) :
  In a (after_book ps vs bs ss) -> is_overlay a = true \/ a = Show.
Proof.
  unfold after_book, closing; rewrite in_app_iff; intros [Hin|Hin].
  - left; now apply overlay_artists in Hin.
  - right; destruct (overlay_outcome ps vs bs ss); cbn in Hin; intuition.
Qed.

Lemma after_book_no_book_artist ps vs bs ss :
  gridlines (after_book ps vs bs ss) = []
  /\ fills (after_book ps vs bs ss) = []
  /\ bar_heights blue (after_book ps vs bs ss) = []
  /\ bar_heights red (after_book ps vs bs ss) = []
  /\ bar_anchors blue (after_book ps vs bs ss) = []
  /\ bar_anchors red (after_book ps vs bs ss) = []
  /\ xlims (after_book ps vs bs ss) = [].
Proof.
  repeat split; apply flat_map_nil_in; intros a Ha;
    destruct (after_book_artists _ _ _ _ _ Ha) as [H| ->]; try reflexivity;
    destruct a; try discriminate H; reflexivity.
Qed.

Lemma gridlines_chart asks bids m lo hi ps vs bs ss :
  gridlines (book_chart asks bids m lo hi ++ after_book ps vs bs ss)
  = Py.sorted (Py.set (map price asks ++ map price bids)).
Proof.
  destruct (after_book_no_book_artist ps vs bs ss) as (Hg & _).
  unfold gridlines in *; read_chart.
  rewrite Hg, map_id.
  replace (flat_map _ (Py.sorted (Py.set (map time asks ++ map time bids))))
    with (@nil Z); [now rewrite !app_nil_r|].
  symmetry; apply flat_map_all_nil; intros t.
  destruct (spread_at_cases asks bids t) as [->|(y1 & y2 & ->)]; reflexivity.
Qed.

Lemma fills_chart asks bids m lo hi ps vs bs ss :
  fills (book_chart asks bids m lo hi ++ after_book ps vs bs ss)
  = fills (flat_map (spread_at asks bids)
             (Py.sorted (Py.set (map time asks ++ map time bids)))).
Proof.
  destruct (after_book_no_book_artist ps vs bs ss) as (_ & Hf & _).
  unfold fills in *; read_chart.
  now rewrite Hf, app_nil_r.
Qed.

Lemma bar_heights_chart asks bids m lo hi ps vs bs ss :
  bar_heights blue (book_chart asks bids m lo hi ++ after_book ps vs bs ss)
  = normalise m asks
  /\ bar_heights red (book_chart asks bids m lo hi ++ after_book ps vs bs ss)
     = map Qopp (normalise m bids).
Proof.
  destruct (after_book_no_book_artist ps vs bs ss) as (_ & _ & Hb & Hr & _).
  assert (Hsp : forall c ts,
             flat_map (fun a => bar_heights c (spread_at asks bids a)) ts = []).
  { intros c ts; apply flat_map_all_nil; intros t.
    destruct (spread_at_cases asks bids t) as [->|(y1 & y2 & ->)]; reflexivity. }
  split; unfold bar_heights in *; read_chart.
  - specialize (Hsp blue); cbn [color_eqb] in Hb, Hsp.
    rewrite Hb, Hsp, !app_nil_r; reflexivity.
  - specialize (Hsp red); cbn [color_eqb] in Hr, Hsp.
    rewrite Hr, Hsp, !app_nil_r; unfold normalise; now rewrite map_map.
Qed.

Lemma marker_sizes_chart c asks bids m lo hi ps vs bs ss :
  marker_sizes c (book_chart asks bids m lo hi ++ after_book ps vs bs ss)
  = marker_sizes c (overlay ps vs bs ss).
Proof.
  unfold marker_sizes; read_chart.
  replace (flat_map _ (Py.sorted (Py.set (map time asks ++ map time bids))))
    with (@nil (list Z)).
  - unfold after_book, closing; rewrite flat_map_app.
    destruct (overlay_outcome ps vs bs ss); cbn [flat_map app];
      now rewrite app_nil_r.
  - symmetry; apply flat_map_all_nil; intros t.
    destruct (spread_at_cases asks bids t) as [->|(y1 & y2 & ->)]; reflexivity.
Qed.

(** Every call either stops before the figure is created, or draws the book
    and goes on to the overlay. *)
Lemma run_cases (book : list Snapshot) ps vs bs ss :
  (exists e, run (plot_order_flow book ps vs bs ss) = ([], inl e))
  \/ (exists m lo hi,
        max_volume book = inr m /\ m <> 0
        /\ run (plot_order_flow book ps vs bs ss)
           = (book_chart (ask_data book) (bid_data book) m lo hi
                ++ after_book ps vs bs ss, overlay_outcome ps vs bs ss)).
Proof.
  destruct (ask_data book) as [|a la] eqn:Ea.
  { left; eexists; apply plot_order_flow_missing_side; now left. }
  destruct (bid_data book) as [|b lb] eqn:Eb.
  { left; eexists; apply plot_order_flow_missing_side; now right. }
  destruct (max_volume_ok book) as [m Hm]; [congruence..|].
  destruct (Z.eq_dec m 0) as [->|Hnz].
  - left; eexists; now apply plot_order_flow_zero_volume.
  - right. destruct (plot_order_flow_run book ps vs bs ss m Hm Hnz)
      as (lo & hi & _ & _ & Hrun).
    exists m, lo, hi; rewrite <- Ea, <- Eb; auto.
Qed.

Lemma book_chart_no_overlay asks bids m lo hi :
  forallb (fun a => negb (is_overlay a)) (book_chart asks bids m lo hi) = true.
Proof.
  apply forallb_forall; intros a Ha; unfold book_chart in Ha.
  repeat (apply in_app_or in Ha; destruct Ha as [Ha|Ha]).
  - destruct Ha as [<-|[]]; reflexivity.
  - apply in_map_iff in Ha; destruct Ha as (d & <- & _); reflexivity.
  - apply in_map_iff in Ha; destruct Ha as (d & <- & _); reflexivity.
  - apply in_map_iff in Ha; destruct Ha as (d & <- & _); reflexivity.
  - apply in_flat_map in Ha; destruct Ha as (t & _ & Ha).
    destruct (spread_at_cases asks bids t) as [E|(y1 & y2 & E)];
      rewrite E in Ha; [destruct Ha|destruct Ha as [<-|[]]; reflexivity].
  - cbn in Ha; intuition (subst; reflexivity).
Qed.

Lemma nth_sizes (volumes flags : list Z) (i : nat) :
  List.length volumes = List.length flags ->
  nth i (sizes volumes flags) 0 = 20 * (nth i volumes 0 * nth i flags 0).
Proof.
  unfold sizes, Py.zip; revert flags i.
  induction volumes as [|v volumes IH]; intros [|f flags] i Hlen;
    try discriminate; destruct i; cbn [combine map nth fst snd]; try lia.
  apply IH; now injection Hlen.
Qed.

Lemma length_sizes (volumes flags : list Z) :
  List.length (sizes volumes flags) = Nat.min (List.length volumes) (List.length flags).
Proof. unfold sizes, Py.zip; now rewrite !length_map, length_combine. Qed.

Lemma enumerate_from_steps (l : list Z) (k : nat) :
  map fst (map (fun iv => (fst iv + 1, snd iv)) (Py.enumerate_from (Z.of_nat k) l))
  = map Z.of_nat (seq (S k) (List.length l))
  /\ map snd (map (fun iv => (fst iv + 1, snd iv)) (Py.enumerate_from (Z.of_nat k) l))
     = l.
Proof.
  revert k; induction l as [|a l IH]; intros k; [split; reflexivity|].
  cbn [Py.enumerate_from map fst snd List.length seq].
  replace (Z.of_nat k + 1) with (Z.of_nat (S k)) by lia.
  destruct (IH (S k)) as [-> ->]; split; reflexivity.
Qed.

Lemma length_steps (n : nat) : List.length (steps n) = n.
Proof. unfold steps; now rewrite length_map, length_seq. Qed.

(** Lines 80-87 when the four sequences are supplied and not empty. *)
Lemma overlay_full (p v b s : list Z) :
  p <> [] -> v <> [] -> b <> [] -> s <> [] ->
  let x := steps (List.length p) in
  let n := List.length p in
  overlay (Some p) (Some v) (Some b) (Some s)
  = Plot x p
    :: (if accepted_length n (List.length (sizes v b))
        then Scatter x p (sizes v b) green
             :: (if accepted_length n (List.length (sizes v s))
                 then [Scatter x p (sizes v s) red]
                 else [])
        else [])
  /\ overlay_outcome (Some p) (Some v) (Some b) (Some s)
     = if accepted_length n (List.length (sizes v b))
          && accepted_length n (List.length (sizes v s))
       then inr tt
       else inl (ValueError
              "s must be a scalar, or float array-like with the same size as x and y").
Proof.
  intros Hp Hv Hb Hs x n; subst x n.
  unfold overlay, overlay_outcome, plot_prices.
  destruct p as [|p0 p]; [congruence|].
  destruct v as [|v0 v]; [congruence|].
  destruct b as [|b0 b]; [congruence|].
  destruct s as [|s0 s]; [congruence|].
  unfold Py.enumerate.
  destruct (enumerate_from_steps (p0 :: p) 0) as [Hx Hy].
  change (Z.of_nat 0) with 0 in Hx, Hy.
  set (xy := map _ (Py.enumerate_from 0 (p0 :: p))) in *.
  assert (Hxy : Py.unzip2 xy = inr (map fst xy, map snd xy))
    by (subst xy; reflexivity).
  rewrite Hxy, bind_lift_ok; cbv beta iota.
  rewrite Hx, Hy; fold (steps (List.length (p0 :: p))).
  rewrite bind_draw; unfold bind; rewrite !scatter_run, length_steps.
  fold (sizes (v0 :: v) (b0 :: b)); fold (sizes (v0 :: v) (s0 :: s)).
  destruct (accepted_length _ (List.length (sizes (v0 :: v) (b0 :: b))));
    [|split; reflexivity].
  rewrite !scatter_run, length_steps.
  destruct (accepted_length _ (List.length (sizes (v0 :: v) (s0 :: s))));
    split; reflexivity.
Qed.

Lemma marker_sizes_overlay p v b s :
  p <> [] -> v <> [] -> b <> [] -> s <> [] ->
  accepted_length (List.length p) (List.length (sizes v b)) = true ->
  accepted_length (List.length p) (List.length (sizes v s)) = true ->
  marker_sizes green (overlay (Some p) (Some v) (Some b) (Some s)) = [sizes v b]
  /\ marker_sizes red (overlay (Some p) (Some v) (Some b) (Some s)) = [sizes v s].
Proof.
  intros Hp Hv Hb Hs Hg Hr.
  destruct (overlay_full p v b s Hp Hv Hb Hs) as [-> _].
  rewrite Hg, Hr; split; reflexivity.
Qed.

(** * The trade overlay *)

(** C4: when the four trade sequences are supplied non-empty and of the same
    length, and the book is one the function draws, there is exactly one
    green and one red scatter call; their size lists have one entry per step
    and the entry of step [i] is [20 * (volumes[i] * buy[i])], respectively
    [20 * (volumes[i] * sell[i])], the factor 20 being the same for every
    step.  At a step where both flags are 0 both sizes are 0. *)
Theorem marker_size_proportional
  (book : list Snapshot) (m : Z) (p v b s : list Z) :
  max_volume book = inr m -> m <> 0 ->
  p <> [] ->
  List.length v = List.length p ->
  List.length b = List.length p ->
  List.length s = List.length p ->
  let tr := fst (run (plot_order_flow book (Some p) (Some v) (Some b) (Some s))) in
  exists g r,
    marker_sizes green tr = [g] /\ marker_sizes red tr = [r]
    /\ List.length g = List.length p /\ List.length r = List.length p
    /\ forall i, (i < List.length p)%nat ->
         nth i g 0 = 20 * (nth i v 0 * nth i b 0)
         /\ nth i r 0 = 20 * (nth i v 0 * nth i s 0)
         /\ (nth i b 0 = 0 -> nth i s 0 = 0 -> nth i g 0 = 0 /\ nth i r 0 = 0).
Proof.
  intros Hm Hnz Hp Hv Hb Hs tr.
  destruct (plot_order_flow_run book (Some p) (Some v) (Some b) (Some s) m Hm Hnz)
    as (lo & hi & _ & _ & Hrun).
  subst tr; rewrite Hrun; cbn [fst].
  assert (Hne : forall l : list Z, List.length l = List.length p -> l <> []).
  { intros l Hl ->; destruct p; [congruence|discriminate]. }
  assert (Hacc : forall k, accepted_length k (Nat.min k k) = true).
  { intros k; unfold accepted_length.
    now rewrite Nat.min_id, Nat.eqb_refl, orb_true_r. }
  destruct (marker_sizes_overlay p v b s) as [Hg Hr]; auto;
    try (rewrite length_sizes, Hv, ?Hb, ?Hs; apply Hacc).
  exists (sizes v b), (sizes v s).
  rewrite !marker_sizes_chart, Hg, Hr, !length_sizes, Hv, Hb, Hs, Nat.min_id.
  do 4 (split; [reflexivity|]).
  intros i _; rewrite !nth_sizes by congruence.
  do 2 (split; [reflexivity|]).
  intros -> ->; lia.
Qed.

Lemma marker_size_proportional_witness :
  exists g r,
    marker_sizes green
      (fst (run (plot_order_flow example_book (Some [100; 98; 98; 102])
                   (Some [8; 7; 0; 3]) (Some [1; 0; 0; 1]) (Some [0; 1; 0; 0]))))
    = [g]
    /\ marker_sizes red
         (fst (run (plot_order_flow example_book (Some [100; 98; 98; 102])
                      (Some [8; 7; 0; 3]) (Some [1; 0; 0; 1]) (Some [0; 1; 0; 0]))))
       = [r]
    /\ List.length g = 4%nat /\ List.length r = 4%nat
    /\ forall i, (i < 4)%nat ->
         nth i g 0 = 20 * (nth i [8; 7; 0; 3] 0 * nth i [1; 0; 0; 1] 0)
         /\ nth i r 0 = 20 * (nth i [8; 7; 0; 3] 0 * nth i [0; 1; 0; 0] 0)
         /\ (nth i [1; 0; 0; 1] 0 = 0 -> nth i [0; 1; 0; 0] 0 = 0 ->
             nth i g 0 = 0 /\ nth i r 0 = 0).
Proof.
  apply (marker_size_proportional example_book 5 [100; 98; 98; 102]
           [8; 7; 0; 3] [1; 0; 0; 1] [0; 1; 0; 0]);
    [reflexivity | lia | discriminate | reflexivity | reflexivity | reflexivity].
Defined.

(** The specification's overlay example: sizes [8,0,0,3] and [0,7,0,0]
    scaled by 20. *)
Example overlay_example :
  let tr := fst (run (plot_order_flow example_book (Some [100; 98; 98; 102])
                        (Some [8; 7; 0; 3]) (Some [1; 0; 0; 1]) (Some [0; 1; 0; 0]))) in
  marker_sizes green tr = [[160; 0; 0; 60]]
  /\ marker_sizes red tr = [[0; 140; 0; 0]].
Proof. split; reflexivity. Qed.

(** C6, as stated, fails: a volume sequence longer than the price sequence
    is accepted; the call returns normally and the extra volume is dropped. *)
Lemma mismatched_length_accepted :
  List.length [8; 7] <> List.length [100]
  /\ snd (run (plot_order_flow example_book
                 (Some [100]) (Some [8; 7]) (Some [1]) (Some [0]))) = inr tt
  /\ marker_sizes green
       (fst (run (plot_order_flow example_book
                    (Some [100]) (Some [8; 7]) (Some [1]) (Some [0])))) = [[160]]
  /\ ~ (exists e,
          snd (run (plot_order_flow example_book
                      (Some [100]) (Some [8; 7]) (Some [1]) (Some [0]))) = inl e
          /\ exn_class e = "InvalidInput").
Proof.
  repeat split; try reflexivity; [discriminate|].
  intros (e & He & _); discriminate He.
Qed.

Lemma book_chart_no_show asks bids m lo hi :
  ~ In Show (book_chart asks bids m lo hi)
  /\ In Subplots (book_chart asks bids m lo hi).
Proof.
  split; [|now left].
  unfold book_chart; intros Hin.
  repeat (apply in_app_or in Hin; destruct Hin as [Hin|Hin]).
  - destruct Hin as [E|[]]; discriminate E.
  - apply in_map_iff in Hin; destruct Hin as (d & E & _); discriminate E.
  - apply in_map_iff in Hin; destruct Hin as (d & E & _); discriminate E.
  - apply in_map_iff in Hin; destruct Hin as (d & E & _); discriminate E.
  - apply in_flat_map in Hin; destruct Hin as (t & _ & Hin).
    destruct (spread_at_cases asks bids t) as [E|(y1 & y2 & E)];
      rewrite E in Hin; [destruct Hin|].
    destruct Hin as [E'|[]]; discriminate E'.
  - cbn in Hin; intuition discriminate.
Qed.

(** C6, amended: the function checks no length and never raises an
    [InvalidInput] error.  The size list of the green (red) scatter call is
    computed over [zip(volumes, buy)] ([zip(volumes, sell)]), so it is cut to
    the shorter of the two sequences.  For a book that is drawn and four
    non-empty sequences: if both cut lists have one element or as many as the
    price sequence, the call returns normally and the markers are drawn with
    the cut lists; otherwise the first scatter call whose list has another
    length raises matplotlib's [ValueError], after the book and the price
    line have been drawn, the red markers are not drawn and the figure is
    never shown. *)
Theorem mismatched_lengths_truncated
  (book : list Snapshot) (m : Z) (p v b s : list Z) :
  max_volume book = inr m -> m <> 0 ->
  p <> [] -> v <> [] -> b <> [] -> s <> [] ->
  let r := run (plot_order_flow book (Some p) (Some v) (Some b) (Some s)) in
  let n := List.length p in
  List.length (sizes v b) = Nat.min (List.length v) (List.length b)
  /\ List.length (sizes v s) = Nat.min (List.length v) (List.length s)
  /\ (accepted_length n (List.length (sizes v b))
      && accepted_length n (List.length (sizes v s)) = true ->
      snd r = inr tt
      /\ marker_sizes green (fst r) = [sizes v b]
      /\ marker_sizes red (fst r) = [sizes v s])
  /\ (accepted_length n (List.length (sizes v b))
      && accepted_length n (List.length (sizes v s)) = false ->
      snd r = inl (Raise "ValueError"
                     "s must be a scalar, or float array-like with the same size as x and y")
      /\ In Subplots (fst r)
      /\ In (Plot (steps n) p) (fst r)
      /\ marker_sizes red (fst r) = []
      /\ ~ In Show (fst r)).
Proof.
  intros Hm Hnz Hp Hv Hb Hs r n.
  destruct (plot_order_flow_run book (Some p) (Some v) (Some b) (Some s) m Hm Hnz)
    as (lo & hi & _ & _ & Hrun).
  destruct (overlay_full p v b s Hp Hv Hb Hs) as [Hov Hout]; cbv zeta in Hov, Hout.
  destruct (book_chart_no_show (ask_data book) (bid_data book) m lo hi)
    as [Hnoshow Hsub].
  subst r n; rewrite Hrun; cbn [fst snd]; rewrite !length_sizes.
  rewrite !length_sizes in Hov, Hout.
  do 2 (split; [reflexivity|]).
  rewrite !marker_sizes_chart.
  unfold after_book, closing; rewrite Hout, Hov.
  destruct (accepted_length _ (Nat.min (List.length v) (List.length b)));
    destruct (accepted_length _ (Nat.min (List.length v) (List.length s)));
    cbn [andb]; split; intros Hc; try discriminate Hc;
    repeat split; try reflexivity;
    try (apply in_or_app; left; exact Hsub);
    try (apply in_or_app; right; now left);
    rewrite app_nil_r; intros Hin; apply in_app_or in Hin;
    (destruct Hin as [Hin|Hin]; [contradiction|]);
    cbn in Hin; intuition discriminate.
Qed.

Lemma mismatched_lengths_truncated_witness :
  let r := run (plot_order_flow example_book
                  (Some [100; 98; 97]) (Some [8; 7]) (Some [1; 0; 1]) (Some [0; 1])) in
  snd r = inl (Raise "ValueError"
                 "s must be a scalar, or float array-like with the same size as x and y")
  /\ In Subplots (fst r)
  /\ In (Plot (steps 3) [100; 98; 97]) (fst r)
  /\ marker_sizes red (fst r) = []
  /\ ~ In Show (fst r).
Proof.
  refine (proj2 (proj2 (proj2
            (mismatched_lengths_truncated example_book 5
               [100; 98; 97] [8; 7] [1; 0; 1] [0; 1] _ _ _ _ _ _))) _);
    [reflexivity | lia | discriminate | discriminate | discriminate
    | discriminate | reflexivity].
Defined.


(** * Failure conditions *)

(** C5, as stated, fails: on the empty book the call ends with the
    interpreter's [ValueError] of the failed unpacking, and on a book whose
    volumes are all zero with its [ZeroDivisionError]; neither is of an
    [InvalidInput] or [DegenerateInput] class. *)
Lemma low_level_fault_propagates :
  run (plot_order_flow [] None None None None)
  = ([], inl (Raise "ValueError" "not enough values to unpack (expected 3, got 0)"))
  /\ run (plot_order_flow zero_book None None None None)
     = ([], inl (Raise "ZeroDivisionError" "division by zero"))
  /\ ~ (exists e, snd (run (plot_order_flow [] None None None None)) = inl e
                  /\ exn_class e = "InvalidInput")
  /\ ~ (exists e, snd (run (plot_order_flow zero_book None None None None)) = inl e
                  /\ exn_class e = "DegenerateInput").
Proof.
  repeat split; try reflexivity;
    intros (e & He & Hc); cbn in He; injection He as <-; discriminate Hc.
Qed.

(** C5, amended: for every invalid book the call stops before the figure is
    created, so nothing is drawn or shown, and the exception is the
    interpreter's own: the [ValueError] of the unpacking for an empty book or
    a missing side, the [ZeroDivisionError] of the normalisation when both
    sides are present and every volume is zero. *)
Theorem invalid_book_faults
  (book : list Snapshot) (ps vs bs ss : option (list Z)) (e : exn) :
  rejected book e ->
  run (plot_order_flow book ps vs bs ss) = ([], inl e).
Proof.
  intros [->|Hask|Hbid|Hask Hbid Hzero].
  - reflexivity.
  - apply plot_order_flow_missing_side; left.
    destruct (ask_data book) eqn:E; [reflexivity|].
    exfalso; apply Hask, has_ask_data; congruence.
  - apply plot_order_flow_missing_side; right.
    destruct (bid_data book) eqn:E; [reflexivity|].
    exfalso; apply Hbid, has_bid_data; congruence.
  - apply plot_order_flow_zero_volume.
    apply has_ask_data in Hask; apply has_bid_data in Hbid.
    destruct (max_volume_ok book Hask Hbid) as [m Hm]; rewrite Hm.
    destruct (max_volume_inv _ _ Hm) as (a & b & Ha & Hb & -> & _).
    assert (Hall : forall side_data x l,
               (forall d, In d side_data -> in_book d book) ->
               map volume side_data = x :: l -> fold_left Z.max l x = 0).
    { intros side_data x l Hin E.
      destruct (fold_max_spec l x) as [Hmem _]; rewrite <- E in Hmem.
      apply in_map_iff in Hmem; destruct Hmem as (d & <- & Hd); auto. }
    destruct (map volume (ask_data book)) as [|x l] eqn:Ea; [discriminate|].
    destruct (map volume (bid_data book)) as [|y l'] eqn:Eb; [discriminate|].
    injection Ha as <-; injection Hb as <-.
    rewrite (Hall _ _ _ (fun d H => proj1 (proj1 (in_ask_data d book) H)) Ea).
    rewrite (Hall _ _ _ (fun d H => proj1 (proj1 (in_bid_data d book) H)) Eb).
    reflexivity.
Qed.

Lemma invalid_book_faults_witness :
  run (plot_order_flow zero_book (Some [100]) None None None)
  = ([], inl (ZeroDivisionError "division by zero")).
Proof.
  apply (invalid_book_faults zero_book (Some [100]) None None None).
  apply rejected_zero_volume.
  - exists (mkLevel 1 101 0 "ask"); split; [|reflexivity].
    exists [mkLevel 1 101 0 "ask"; mkLevel 1 99 0 "bid"]; cbn; auto.
  - exists (mkLevel 1 99 0 "bid"); split; [|reflexivity].
    exists [mkLevel 1 101 0 "ask"; mkLevel 1 99 0 "bid"]; cbn; auto.
  - intros d (snapshot & [<-|[]] & [<-|[<-|[]]]); reflexivity.
Defined.

(** The specification's failure example: a book without a bid side. *)
Example no_bid_side_example :
  run (plot_order_flow [[mkLevel 1 101 0 "ask"]] None None None None)
  = ([], inl (ValueError "not enough values to unpack (expected 3, got 0)")).
Proof. reflexivity. Qed.

(** * Independence of the grouping into snapshots *)

(** C8: two books with the same flattened Level list have the same ask and
    bid partitions and the same largest volume, and the two calls draw the
    same trace (bars, gridlines, fills, axis limits, overlay) with the same
    outcome. *)
Theorem grouping_irrelevant
  (book book' : list Snapshot) (ps vs bs ss : option (list Z)) :
  flatten book = flatten book' ->
  ask_data book = ask_data book'
  /\ bid_data book = bid_data book'
  /\ max_volume book = max_volume book'
  /\ run (plot_order_flow book ps vs bs ss)
     = run (plot_order_flow book' ps vs bs ss).
Proof.
  intros Hflat.
  assert (Ha : ask_data book = ask_data book')
    by (now rewrite !ask_data_flatten, Hflat).
  assert (Hb : bid_data book = bid_data book')
    by (now rewrite !bid_data_flatten, Hflat).
  repeat split; trivial.
  - now apply max_volume_sides.
  - unfold run; now rewrite (plot_order_flow_sides book book').
Qed.

Lemma grouping_irrelevant_witness :
  ask_data example_book = ask_data [flatten example_book]
  /\ bid_data example_book = bid_data [flatten example_book]
  /\ max_volume example_book = max_volume [flatten example_book]
  /\ run (plot_order_flow example_book (Some [100; 98]) None None None)
     = run (plot_order_flow [flatten example_book] (Some [100; 98]) None None None).
Proof.
  apply (grouping_irrelevant example_book [flatten example_book]); reflexivity.
Defined.

(** * Levels of an unknown side *)

Lemma drop_untagged_sides (book : list Snapshot) ps vs bs ss :
  run (plot_order_flow (drop_untagged book) ps vs bs ss)
  = run (plot_order_flow book ps vs bs ss).
Proof.
  unfold run; rewrite (plot_order_flow_sides (drop_untagged book) book);
    auto using ask_data_drop_untagged, bid_data_drop_untagged.
Qed.

(** C9: a Level whose side is neither ['ask'] nor ['bid'], wherever it
    stands in the book, is ignored: with or without it the ask and bid
    partitions and the largest volume are the same, and the call draws the
    same trace with the same outcome (so it adds no bar, gridline or fill,
    and is the cause of no exception). *)
Theorem untagged_level_dropped
  (before after : list Snapshot) (front back : Snapshot) (d : Level)
  (ps vs bs ss : option (list Z)) :
  side d <> "ask" -> side d <> "bid" ->
  let book := before ++ (front ++ d :: back) :: after in
  let book' := before ++ (front ++ back) :: after in
  ask_data book = ask_data book'
  /\ bid_data book = bid_data book'
  /\ max_volume book = max_volume book'
  /\ run (plot_order_flow book ps vs bs ss)
     = run (plot_order_flow book' ps vs bs ss).
Proof.
  intros Hask Hbid book book'.
  assert (Hf : forall tag, side d <> tag ->
             filter (fun item => (side item =? tag)%string) (flatten book)
             = filter (fun item => (side item =? tag)%string) (flatten book')).
  { intros tag Htag; subst book book'; unfold flatten.
    rewrite !concat_app; cbn [List.concat].
    rewrite !filter_app; cbn [filter].
    apply String.eqb_neq in Htag; now rewrite Htag. }
  assert (Ha : ask_data book = ask_data book')
    by (rewrite !ask_data_flatten; auto).
  assert (Hb : bid_data book = bid_data book')
    by (rewrite !bid_data_flatten; auto).
  repeat split; trivial.
  - now apply max_volume_sides.
  - unfold run; now rewrite (plot_order_flow_sides book book').
Qed.

Lemma untagged_level_dropped_witness :
  let book := [] ++ ([mkLevel 1 101 2 "ask"]
                       ++ mkLevel 1 500 900 "Ask" :: [mkLevel 1 99 5 "bid"]) :: [] in
  let book' := [] ++ ([mkLevel 1 101 2 "ask"] ++ [mkLevel 1 99 5 "bid"]) :: [] in
  ask_data book = ask_data book'
  /\ bid_data book = bid_data book'
  /\ max_volume book = max_volume book'
  /\ run (plot_order_flow book None None None None)
     = run (plot_order_flow book' None None None None).
Proof.
  apply (untagged_level_dropped [] [] [mkLevel 1 101 2 "ask"]
           [mkLevel 1 99 5 "bid"] (mkLevel 1 500 900 "Ask"));
    discriminate.
Defined.

(** * Gridlines and spread fills *)

Lemma fill_x_inj (t t' : Z) : fst (fill_x t) = fst (fill_x t') -> t = t'.
Proof.
  unfold fill_x; cbn [fst]; intros H.
  apply inject_Z_injective.
  assert (E : (inject_Z t - (1 # 2) == inject_Z t' - (1 # 2))%Q).
  { rewrite <- (Qred_correct (inject_Z t - (1 # 2))), H; apply Qred_correct. }
  apply (Qplus_inj_r _ _ (- (1 # 2))%Q); exact E.
Qed.

Lemma spread_at_sides (asks bids : list Level) (t y1 y2 : Z) :
  spread_at asks bids t = [FillBetween (fst (fill_x t)) (snd (fill_x t)) y1 y2] ->
  ((exists d, In d bids /\ time d = t /\ price d = y1)
   /\ forall d, In d bids -> time d = t -> price d <= y1)
  /\ ((exists d, In d asks /\ time d = t /\ price d = y2)
      /\ forall d, In d asks -> time d = t -> y2 <= price d).
Proof.
  unfold spread_at.
  destruct (map price (filter _ asks)) as [|a la] eqn:Ea; [discriminate|].
  destruct (map price (filter _ bids)) as [|b lb] eqn:Eb; [discriminate|].
  intros [= <- <-].
  destruct (fold_max_spec lb b) as [Hin Hub], (fold_min_spec la a) as [Hin' Hlb].
  rewrite <- Eb in Hin, Hub; rewrite <- Ea in Hin', Hlb.
  apply in_map_iff in Hin; destruct Hin as (d & Hd & Hf).
  apply in_map_iff in Hin'; destruct Hin' as (d' & Hd' & Hf').
  apply filter_In in Hf, Hf'; rewrite Z.eqb_eq in Hf, Hf'.
  repeat split.
  - exists d; tauto.
  - intros x Hx Ht; apply Hub, in_map, filter_In; now rewrite Z.eqb_eq.
  - exists d'; tauto.
  - intros x Hx Ht; apply Hlb, in_map, filter_In; now rewrite Z.eqb_eq.
Qed.

Lemma spread_at_both (asks bids : list Level) (t : Z) :
  (exists d, In d asks /\ time d = t) ->
  (exists d, In d bids /\ time d = t) ->
  exists y1 y2,
    spread_at asks bids t = [FillBetween (fst (fill_x t)) (snd (fill_x t)) y1 y2].
Proof.
  intros (a & Ha & Hta) (b & Hb & Htb); unfold spread_at.
  assert (Ha' : In (price a) (map price (filter (fun d => (time d =? t)%Z) asks)))
    by (apply in_map, filter_In; now rewrite Z.eqb_eq).
  assert (Hb' : In (price b) (map price (filter (fun d => (time d =? t)%Z) bids)))
    by (apply in_map, filter_In; now rewrite Z.eqb_eq).
  destruct (map price (filter _ asks)); [destruct Ha'|].
  destruct (map price (filter _ bids)); [destruct Hb'|].
  eauto.
Qed.

Lemma in_fills_spread (asks bids : list Level) (ts : list Z) (t y1 y2 : Z) :
  In (fst (fill_x t), snd (fill_x t), y1, y2)
     (fills (flat_map (spread_at asks bids) ts))
  <-> In t ts
      /\ spread_at asks bids t
         = [FillBetween (fst (fill_x t)) (snd (fill_x t)) y1 y2].
Proof.
  unfold fills; rewrite flat_map_flat_map, in_flat_map; split.
  - intros (t' & Ht' & Hin).
    destruct (spread_at_cases asks bids t') as [E|(z1 & z2 & E)];
      rewrite E in Hin; cbn in Hin; [destruct Hin|].
    destruct Hin as [[= Hx _ <- <-]|[]].
    apply fill_x_inj in Hx; subst t'; auto.
  - intros (Ht & E); exists t; split; [exact Ht|].
    rewrite E; cbn; now left.
Qed.

(** C3, as stated, fails: a book with both sides whose volumes are all zero
    gets no gridline at all, although it has Levels at prices 101 and 99. *)
Lemma gridlines_missing_on_zero_volume :
  has_ask zero_book /\ has_bid zero_book
  /\ (exists d, in_book d zero_book /\ is_ask d /\ price d = 101)
  /\ gridlines (fst (run (plot_order_flow zero_book None None None None))) = [].
Proof.
  assert (Ha : in_book (mkLevel 1 101 0 "ask") zero_book)
    by (eexists; split; [left; reflexivity|cbn; auto]).
  assert (Hb : in_book (mkLevel 1 99 0 "bid") zero_book)
    by (eexists; split; [left; reflexivity|cbn; auto]).
  repeat split.
  - eexists; split; [exact Ha|reflexivity].
  - eexists; split; [exact Hb|reflexivity].
  - eexists; repeat split; [exact Ha|reflexivity..].
Qed.

(** C3, amended: for every book with at least one ask and one bid Level
    whose largest volume is not zero (so that the normalisation succeeds and
    the chart is drawn), the gridlines are drawn at pairwise distinct prices,
    and a price has a gridline if and only if it is the price of some ask or
    bid Level. *)
Theorem gridlines_are_distinct_prices
  (book : list Snapshot) (ps vs bs ss : option (list Z)) :
  has_ask book -> has_bid book -> max_volume book <> inr 0 ->
  let tr := fst (run (plot_order_flow book ps vs bs ss)) in
  NoDup (gridlines tr)
  /\ forall p, In p (gridlines tr)
               <-> exists d, in_book d book /\ (is_ask d \/ is_bid d) /\ price d = p.
Proof.
  intros Hask Hbid Hnz tr.
  apply has_ask_data in Hask; apply has_bid_data in Hbid.
  destruct (max_volume_ok book Hask Hbid) as [m Hm].
  assert (Hm0 : m <> 0) by congruence.
  destruct (plot_order_flow_run book ps vs bs ss m Hm Hm0)
    as (lo & hi & _ & _ & Hrun).
  subst tr; rewrite Hrun; cbn [fst]; rewrite gridlines_chart.
  split; [apply sorted_set_NoDup|].
  intros p; rewrite sorted_set_In, in_app_iff, !in_map_iff; split.
  - intros [(d & <- & Hd)|(d & <- & Hd)]; exists d.
    + apply in_ask_data in Hd; tauto.
    + apply in_bid_data in Hd; tauto.
  - intros (d & Hd & [Hs|Hs] & <-).
    + left; exists d; split; [reflexivity|now apply in_ask_data].
    + right; exists d; split; [reflexivity|now apply in_bid_data].
Qed.

Lemma gridlines_are_distinct_prices_witness :
  let tr := fst (run (plot_order_flow example_book None None None None)) in
  NoDup (gridlines tr)
  /\ forall p, In p (gridlines tr)
               <-> exists d, in_book d example_book
                             /\ (is_ask d \/ is_bid d) /\ price d = p.
Proof.
  apply (gridlines_are_distinct_prices example_book None None None None).
  - exists (mkLevel 1 101 2 "ask"); split; [|reflexivity].
    eexists; split; [left; reflexivity|cbn; auto].
  - exists (mkLevel 1 99 5 "bid"); split; [|reflexivity].
    eexists; split; [left; reflexivity|cbn; auto].
  - discriminate.
Defined.

(** The specification's example scenario: gridlines at 99 and 101, fills at
    time steps 1 and 2 between 99 and 101. *)
Example example_scenario :
  let tr := fst (run (plot_order_flow example_book None None None None)) in
  max_volume example_book = inr 5
  /\ bar_heights blue tr = [2 # 5; 4 # 5]%Q
  /\ map Qopp (bar_heights red tr) = [1; 1]%Q
  /\ gridlines tr = [99; 101]
  /\ fills tr = [(fill_x 1, 99, 101); (fill_x 2, 99, 101)].
Proof. repeat split; reflexivity. Qed.

(** C1, as stated, fails: in a book with both sides whose volumes are all
    zero, time step 1 has an ask and a bid Level, but no fill is drawn. *)
Lemma fill_missing_on_zero_volume :
  has_ask zero_book /\ has_bid zero_book
  /\ (exists a, in_book a zero_book /\ is_ask a /\ time a = 1)
  /\ (exists b, in_book b zero_book /\ is_bid b /\ time b = 1)
  /\ ~ (exists y1 y2,
          fill_emitted (fst (run (plot_order_flow zero_book None None None None)))
                       1 y1 y2).
Proof.
  assert (Ha : in_book (mkLevel 1 101 0 "ask") zero_book)
    by (eexists; split; [left; reflexivity|cbn; auto]).
  assert (Hb : in_book (mkLevel 1 99 0 "bid") zero_book)
    by (eexists; split; [left; reflexivity|cbn; auto]).
  repeat split.
  - eexists; split; [exact Ha|reflexivity].
  - eexists; split; [exact Hb|reflexivity].
  - eexists; repeat split; [exact Ha|reflexivity..].
  - eexists; repeat split; [exact Hb|reflexivity..].
  - intros (y1 & y2 & H); exact H.
Qed.

(** C1, amended: for every book with at least one ask and one bid Level
    whose largest volume is not zero (so that the chart is drawn), a fill is
    drawn for time step [t] if and only if [t] has at least one ask Level and
    at least one bid Level; the lower bound of every fill drawn for [t] is
    the largest bid price at [t] and its upper bound the smallest ask price
    at [t], whether or not the first exceeds the second. *)
Theorem spread_fill_iff_both_sides
  (book : list Snapshot) (ps vs bs ss : option (list Z)) :
  has_ask book -> has_bid book -> max_volume book <> inr 0 ->
  let tr := fst (run (plot_order_flow book ps vs bs ss)) in
  forall t,
    ((exists y1 y2, fill_emitted tr t y1 y2)
     <-> (exists a, in_book a book /\ is_ask a /\ time a = t)
         /\ (exists b, in_book b book /\ is_bid b /\ time b = t))
    /\ forall y1 y2, fill_emitted tr t y1 y2 ->
                     best_bid book t y1 /\ best_ask book t y2.
Proof.
  intros Hask Hbid Hnz tr t.
  apply has_ask_data in Hask; apply has_bid_data in Hbid.
  destruct (max_volume_ok book Hask Hbid) as [m Hm].
  assert (Hm0 : m <> 0) by congruence.
  destruct (plot_order_flow_run book ps vs bs ss m Hm Hm0)
    as (lo & hi & _ & _ & Hrun).
  subst tr; rewrite Hrun; cbn [fst]; unfold fill_emitted.
  rewrite fills_chart.
  assert (Hbounds : forall y1 y2,
             spread_at (ask_data book) (bid_data book) t
             = [FillBetween (fst (fill_x t)) (snd (fill_x t)) y1 y2] ->
             best_bid book t y1 /\ best_ask book t y2).
  { intros y1 y2 E.
    destruct (spread_at_sides _ _ _ _ _ E)
      as (((b & Hb & Htb & Hpb) & Hub) & ((a & Ha & Hta & Hpa) & Hlb)).
    apply in_bid_data in Hb; apply in_ask_data in Ha.
    split; split.
    - exists b; tauto.
    - intros d Hd Hs Ht; apply Hub; [now apply in_bid_data|exact Ht].
    - exists a; tauto.
    - intros d Hd Hs Ht; apply Hlb; [now apply in_ask_data|exact Ht]. }
  split; [split|].
  - intros (y1 & y2 & H); apply in_fills_spread in H; destruct H as [_ E].
    destruct (Hbounds _ _ E) as (((b & Hb) & _) & ((a & Ha) & _)).
    split; [exists a|exists b]; tauto.
  - intros ((a & Ha & Hsa & Hta) & (b & Hb & Hsb & Htb)).
    assert (Ha' : In a (ask_data book)) by now apply in_ask_data.
    assert (Hb' : In b (bid_data book)) by now apply in_bid_data.
    destruct (spread_at_both (ask_data book) (bid_data book) t)
      as (y1 & y2 & E); [eauto..|].
    exists y1, y2; apply in_fills_spread; split; [|exact E].
    apply sorted_set_In, in_app_iff; left; rewrite <- Hta; now apply in_map.
  - intros y1 y2 H; apply in_fills_spread in H; destruct H as [_ E]; auto.
Qed.

Lemma spread_fill_iff_both_sides_witness :
  let tr := fst (run (plot_order_flow example_book None None None None)) in
  ((exists y1 y2, fill_emitted tr 1 y1 y2)
   <-> (exists a, in_book a example_book /\ is_ask a /\ time a = 1)
       /\ (exists b, in_book b example_book /\ is_bid b /\ time b = 1))
  /\ forall y1 y2, fill_emitted tr 1 y1 y2 ->
                   best_bid example_book 1 y1 /\ best_ask example_book 1 y2.
Proof.
  apply (spread_fill_iff_both_sides example_book None None None None).
  - exists (mkLevel 1 101 2 "ask"); split; [|reflexivity].
    eexists; split; [left; reflexivity|cbn; auto].
  - exists (mkLevel 1 99 5 "bid"); split; [|reflexivity].
    eexists; split; [left; reflexivity|cbn; auto].
  - discriminate.
Defined.

(** A crossed book (bid 105 above ask 101) is filled as it is, from the bid
    up to the ask, without swapping the bounds. *)
Example crossed_book_fill :
  fills (fst (run (plot_order_flow
                     [[mkLevel 1 101 2 "ask"; mkLevel 1 105 5 "bid"]]
                     None None None None)))
  = [(fill_x 1, 105, 101)].
Proof. reflexivity. Qed.

(** * Normalised volumes *)

Lemma max_volume_spec (book : list Snapshot) (m : Z) :
  max_volume book = inr m ->
  (exists d, (In d (ask_data book) \/ In d (bid_data book)) /\ volume d = m)
  /\ forall d, In d (ask_data book) \/ In d (bid_data book) -> volume d <= m.
Proof.
  intros Hm; destruct (max_volume_inv _ _ Hm) as (a & b & Ha & Hb & -> & _).
  destruct (map volume (ask_data book)) as [|x la] eqn:Ea; [discriminate|].
  destruct (map volume (bid_data book)) as [|y lb] eqn:Eb; [discriminate|].
  injection Ha as <-; injection Hb as <-.
  destruct (fold_max_spec la x) as [Hina Huba], (fold_max_spec lb y) as [Hinb Hubb].
  rewrite <- Ea in Hina, Huba; rewrite <- Eb in Hinb, Hubb.
  apply in_map_iff in Hina; destruct Hina as (da & Hda & Hina).
  apply in_map_iff in Hinb; destruct Hinb as (db & Hdb & Hinb).
  split.
  - destruct (Z.max_spec (fold_left Z.max la x) (fold_left Z.max lb y))
      as [[_ ->]|[_ ->]]; [exists db|exists da]; auto.
  - intros d [Hd|Hd].
    + specialize (Huba _ (in_map volume _ _ Hd)); lia.
    + specialize (Hubb _ (in_map volume _ _ Hd)); lia.
Qed.

Lemma normalised_bounds (v m : Z) :
  0 <= v <= m -> 0 < m ->
  (0 <= Qred (inject_Z v / inject_Z m) <= 1)%Q.
Proof.
  intros Hv Hm; rewrite Qred_correct.
  assert (Hm' : (0 < inject_Z m)%Q) by (unfold Qlt; cbn; lia).
  split.
  - apply Qle_shift_div_l; [exact Hm'|].
    rewrite Qmult_0_l; unfold Qle; cbn; lia.
  - apply Qle_shift_div_r; [exact Hm'|].
    rewrite Qmult_1_l; unfold Qle; cbn; lia.
Qed.


Lemma Qopp_Qopp (q : Q) : (- - q)%Q = q.
Proof. destruct q as [n d]; unfold Qopp; cbn; now rewrite Z.opp_involutive. Qed.


(** What the hypotheses of the two normalisation claims give: the largest
    volume exists and is positive. *)
Lemma max_volume_positive (book : list Snapshot) :
  has_ask book -> has_bid book ->
  (forall d, in_book d book -> is_ask d \/ is_bid d -> 0 <= volume d) ->
  (exists d, in_book d book /\ (is_ask d \/ is_bid d) /\ 0 < volume d) ->
  exists m, max_volume book = inr m /\ 0 < m
            /\ forall d, In d (ask_data book) \/ In d (bid_data book) ->
                         0 <= volume d <= m.
Proof.
  intros Hask Hbid Hnonneg (d0 & Hd0 & Hs0 & Hpos).
  apply has_ask_data in Hask; apply has_bid_data in Hbid.
  destruct (max_volume_ok book Hask Hbid) as [m Hm].
  destruct (max_volume_spec _ _ Hm) as [_ Hub].
  assert (Hside : forall d, In d (ask_data book) \/ In d (bid_data book) ->
                            in_book d book /\ (is_ask d \/ is_bid d)).
  { intros d [H|H]; [apply in_ask_data in H|apply in_bid_data in H]; tauto. }
  assert (Hd0' : In d0 (ask_data book) \/ In d0 (bid_data book)).
  { destruct Hs0; [left; now apply in_ask_data|right; now apply in_bid_data]. }
  exists m; split; [exact Hm|split].
  - specialize (Hub _ Hd0'); lia.
  - intros d Hd; split; [|now apply Hub].
    destruct (Hside _ Hd); auto.
Qed.

(** C2: for a book with at least one ask and one bid Level, whose ask and bid
    volumes are all non-negative and one of them positive, the call draws one
    blue bar per ask Level and one red bar per bid Level; the height of a
    blue bar is the Level's volume divided by the largest volume and lies in
    [0, 1]; the height of a red bar is the opposite of such a quotient, that
    is a downward extent in [0, 1]. *)
Theorem normalised_volumes_in_unit_interval
  (book : list Snapshot) (ps vs bs ss : option (list Z)) :
  has_ask book -> has_bid book ->
  (forall d, in_book d book -> is_ask d \/ is_bid d -> 0 <= volume d) ->
  (exists d, in_book d book /\ (is_ask d \/ is_bid d) /\ 0 < volume d) ->
  let tr := fst (run (plot_order_flow book ps vs bs ss)) in
  exists m,
    max_volume book = inr m
    /\ bar_heights blue tr = normalise m (ask_data book)
    /\ bar_heights red tr = map Qopp (normalise m (bid_data book))
    /\ (forall h, In h (bar_heights blue tr) -> (0 <= h <= 1)%Q)
    /\ (forall h, In h (bar_heights red tr) -> (0 <= - h <= 1)%Q).
Proof.
  intros Hask Hbid Hnonneg Hpos tr.
  destruct (max_volume_positive book Hask Hbid Hnonneg Hpos)
    as (m & Hm & Hm0 & Hrange).
  destruct (plot_order_flow_run book ps vs bs ss m Hm ltac:(lia))
    as (lo & hi & _ & _ & Hrun).
  subst tr; rewrite Hrun; cbn [fst].
  destruct (bar_heights_chart (ask_data book) (bid_data book) m lo hi ps vs bs ss)
    as [-> ->].
  exists m; split; [exact Hm|]; do 2 (split; [reflexivity|]); split; intros h Hh.
  - unfold normalise in Hh; apply in_map_iff in Hh; destruct Hh as (d & <- & Hd).
    apply normalised_bounds; auto.
  - unfold normalise in Hh; rewrite map_map in Hh.
    apply in_map_iff in Hh; destruct Hh as (d & <- & Hd).
    rewrite Qopp_Qopp; apply normalised_bounds; auto.
Qed.

Lemma example_book_levels :
  has_ask example_book /\ has_bid example_book
  /\ (forall d, in_book d example_book -> is_ask d \/ is_bid d -> 0 <= volume d)
  /\ (exists d, in_book d example_book /\ (is_ask d \/ is_bid d) /\ 0 < volume d).
Proof.
  assert (Ha : in_book (mkLevel 1 101 2 "ask") example_book)
    by (eexists; split; [left; reflexivity|cbn; auto]).
  assert (Hb : in_book (mkLevel 1 99 5 "bid") example_book)
    by (eexists; split; [left; reflexivity|cbn; auto]).
  repeat split.
  - eexists; split; [exact Ha|reflexivity].
  - eexists; split; [exact Hb|reflexivity].
  - intros d (snapshot & Hs & Hd) _; cbn in Hs.
    destruct Hs as [<-|[<-|[]]]; cbn in Hd;
      destruct Hd as [<-|[<-|[]]]; cbn; lia.
  - exists (mkLevel 1 101 2 "ask");
      split; [exact Ha|split; [now left|cbn; lia]].
Qed.

Lemma normalised_volumes_in_unit_interval_witness :
  let tr := fst (run (plot_order_flow example_book None None None None)) in
  exists m,
    max_volume example_book = inr m
    /\ bar_heights blue tr = normalise m (ask_data example_book)
    /\ bar_heights red tr = map Qopp (normalise m (bid_data example_book))
    /\ (forall h, In h (bar_heights blue tr) -> (0 <= h <= 1)%Q)
    /\ (forall h, In h (bar_heights red tr) -> (0 <= - h <= 1)%Q).
Proof.
  apply (normalised_volumes_in_unit_interval example_book None None None None);
    apply example_book_levels.
Defined.



(** * Further properties of the call *)

(** ** Outcome *)

(** For a book with non-negative volumes (as the data model has them, so
    that every quotient of line 39 fits a float), the figure is created
    exactly when the book has an ask Level, a bid Level and a largest ask/bid
    volume different from zero; in every other case the call raises before
    anything is drawn, whatever the trade sequences are. *)
Theorem figure_created_iff (book : list Snapshot) (ps vs bs ss : option (list Z)) :
  (forall d, in_book d book -> is_ask d \/ is_bid d -> 0 <= volume d) ->
  let r := run (plot_order_flow book ps vs bs ss) in
  (In Subplots (fst r)
   <-> has_ask book /\ has_bid book /\ max_volume book <> inr 0)
  /\ (~ In Subplots (fst r) -> fst r = [] /\ exists e, snd r = inl e).
Proof.
  intros _ r; subst r.
  rewrite has_ask_data, has_bid_data.
  destruct (ask_data book) as [|a la] eqn:Ea.
  { rewrite plot_order_flow_missing_side by (now left); cbn [fst snd].
    split; [split; [intros []|intros (H & _); congruence]|eauto]. }
  destruct (bid_data book) as [|b lb] eqn:Eb.
  { rewrite plot_order_flow_missing_side by (now right); cbn [fst snd].
    split; [split; [intros []|intros (_ & H & _); congruence]|eauto]. }
  destruct (max_volume_ok book) as [m Hm]; [congruence..|].
  destruct (Z.eq_dec m 0) as [->|Hnz].
  { rewrite plot_order_flow_zero_volume by exact Hm; cbn [fst snd].
    split; [split; [intros []|intros (_ & _ & H); congruence]|eauto]. }
  destruct (plot_order_flow_run book ps vs bs ss m Hm Hnz)
    as (lo & hi & _ & _ & ->); cbn [fst snd].
  assert (Hsub : In Subplots (book_chart (ask_data book) (bid_data book) m lo hi
                              ++ after_book ps vs bs ss))
    by (apply in_or_app; left; now left).
  split; [split; intros _|intros H; contradiction]; trivial.
  repeat split; congruence.
Qed.

Lemma figure_created_iff_witness :
  let r := run (plot_order_flow example_book (Some [100]) (Some [8; 7]) None None) in
  (In Subplots (fst r)
   <-> has_ask example_book /\ has_bid example_book
       /\ max_volume example_book <> inr 0)
  /\ (~ In Subplots (fst r) -> fst r = [] /\ exists e, snd r = inl e).
Proof.
  apply (figure_created_iff example_book (Some [100]) (Some [8; 7]) None None).
  apply example_book_levels.
Defined.

(** The figure is created at most once, as the first call, and shown at most
    once, as the last call; it is shown exactly when the call returns
    normally. *)
Theorem shown_iff_returns (book : list Snapshot) (ps vs bs ss : option (list Z)) :
  let r := run (plot_order_flow book ps vs bs ss) in
  (fst r = [] \/ exists rest, fst r = Subplots :: rest /\ ~ In Subplots rest)
  /\ (snd r = inr tt <-> exists body, fst r = body ++ [Show] /\ ~ In Show body)
  /\ (snd r <> inr tt -> ~ In Show (fst r)).
Proof.
  intros r; subst r.
  destruct (run_cases book ps vs bs ss)
    as [(e & ->)|(m & lo & hi & _ & _ & ->)]; cbn [fst snd].
  { split; [now left|split; [split|]].
    - discriminate.
    - intros ([|x body] & E & _); discriminate E.
    - intros _ []. }
  destruct (book_chart_no_show (ask_data book) (bid_data book) m lo hi)
    as [Hnoshow _].
  assert (Hov : ~ In Show (overlay ps vs bs ss))
    by (intros H; apply overlay_artists in H; discriminate H).
  split; [right|].
  { unfold book_chart; cbn [app]; eexists; split; [reflexivity|].
    intros Hin.
    apply in_app_or in Hin; destruct Hin as [Hin|Hin].
    - repeat (apply in_app_or in Hin; destruct Hin as [Hin|Hin]).
      + apply in_map_iff in Hin; destruct Hin as (d & E & _); discriminate E.
      + apply in_map_iff in Hin; destruct Hin as (d & E & _); discriminate E.
      + apply in_map_iff in Hin; destruct Hin as (d & E & _); discriminate E.
      + apply in_flat_map in Hin; destruct Hin as (t & _ & Hin).
        destruct (spread_at_cases (ask_data book) (bid_data book) t)
          as [E|(y1 & y2 & E)]; rewrite E in Hin; [destruct Hin|].
        destruct Hin as [E'|[]]; discriminate E'.
      + cbn in Hin; intuition discriminate.
    - apply after_book_artists in Hin; destruct Hin as [H|H]; discriminate H. }
  unfold after_book, closing.
  destruct (overlay_outcome ps vs bs ss) as [e|[]].
  - rewrite !app_nil_r.
    assert (Hno : ~ In Show (book_chart (ask_data book) (bid_data book) m lo hi
                             ++ overlay ps vs bs ss))
      by (intros H; apply in_app_or in H; tauto).
    split; [split; [discriminate|]|intros _; exact Hno].
    intros (body & E & _); exfalso; apply Hno; rewrite E.
    apply in_or_app; right; now left.
  - split; [split; [intros _|reflexivity]|congruence].
    exists (book_chart (ask_data book) (bid_data book) m lo hi
            ++ overlay ps vs bs ss).
    split; [now rewrite app_assoc|].
    intros H; apply in_app_or in H; tauto.
Qed.

(** ** Bars and axis limits *)

Lemma book_drawn (book : list Snapshot) ps vs bs ss :
  has_ask book -> has_bid book -> max_volume book <> inr 0 ->
  exists m lo hi,
    max_volume book = inr m /\ m <> 0
    /\ Py.min (map time (ask_data book) ++ map time (bid_data book)) = inr lo
    /\ Py.max (map time (ask_data book) ++ map time (bid_data book)) = inr hi
    /\ run (plot_order_flow book ps vs bs ss)
       = (book_chart (ask_data book) (bid_data book) m lo hi
            ++ after_book ps vs bs ss, overlay_outcome ps vs bs ss).
Proof.
  intros Ha Hb Hnz; apply has_ask_data in Ha; apply has_bid_data in Hb.
  destruct (max_volume_ok book Ha Hb) as [m Hm].
  assert (Hm0 : m <> 0) by congruence.
  destruct (plot_order_flow_run book ps vs bs ss m Hm Hm0)
    as (lo & hi & Hlo & Hhi & Hrun).
  exists m, lo, hi; auto.
Qed.

(** For a book that is drawn there is one blue bar per ask Level and one red
    bar per bid Level, in the order in which the Levels occur in the book;
    each bar stands at x = the Level's time with its base at the Level's
    price. *)
Theorem bars_follow_levels (book : list Snapshot) (ps vs bs ss : option (list Z)) :
  has_ask book -> has_bid book -> max_volume book <> inr 0 ->
  let tr := fst (run (plot_order_flow book ps vs bs ss)) in
  bar_anchors blue tr = map (fun d => (time d, price d)) (ask_data book)
  /\ bar_anchors red tr = map (fun d => (time d, price d)) (bid_data book).
Proof.
  intros Ha Hb Hnz tr.
  destruct (book_drawn book ps vs bs ss Ha Hb Hnz)
    as (m & lo & hi & _ & _ & _ & _ & Hrun).
  subst tr; rewrite Hrun; cbn [fst].
  destruct (after_book_no_book_artist ps vs bs ss)
    as (_ & _ & _ & _ & Hb1 & Hb2 & _).
  assert (Hsp : forall c ts,
             flat_map (fun a => bar_anchors c
                                  (spread_at (ask_data book) (bid_data book) a)) ts
             = []).
  { intros c ts; apply flat_map_all_nil; intros t.
    destruct (spread_at_cases (ask_data book) (bid_data book) t)
      as [->|(y1 & y2 & ->)]; reflexivity. }
  split; unfold bar_anchors in *; read_chart.
  - specialize (Hsp blue); cbn [color_eqb] in Hb1, Hsp.
    rewrite Hb1, Hsp, !app_nil_r; reflexivity.
  - specialize (Hsp red); cbn [color_eqb] in Hb2, Hsp.
    rewrite Hb2, Hsp, !app_nil_r; reflexivity.
Qed.

Lemma bars_follow_levels_witness :
  let tr := fst (run (plot_order_flow example_book None None None None)) in
  bar_anchors blue tr = map (fun d => (time d, price d)) (ask_data example_book)
  /\ bar_anchors red tr = map (fun d => (time d, price d)) (bid_data example_book).
Proof.
  apply (bars_follow_levels example_book None None None None);
    [apply example_book_levels | apply example_book_levels | discriminate].
Defined.

(** For a book that is drawn the x axis is limited exactly once, to the
    smallest and the largest time of any ask or bid Level: both limits are
    the time of some such Level and every such Level lies between them. *)
Theorem xlim_spans_times (book : list Snapshot) (ps vs bs ss : option (list Z)) :
  has_ask book -> has_bid book -> max_volume book <> inr 0 ->
  let tr := fst (run (plot_order_flow book ps vs bs ss)) in
  exists lo hi,
    xlims tr = [(lo, hi)]
    /\ (exists d, in_book d book /\ (is_ask d \/ is_bid d) /\ time d = lo)
    /\ (exists d, in_book d book /\ (is_ask d \/ is_bid d) /\ time d = hi)
    /\ forall d, in_book d book -> is_ask d \/ is_bid d -> lo <= time d <= hi.
Proof.
  intros Ha Hb Hnz tr.
  destruct (book_drawn book ps vs bs ss Ha Hb Hnz)
    as (m & lo & hi & _ & _ & Hlo & Hhi & Hrun).
  subst tr; rewrite Hrun; cbn [fst].
  exists lo, hi; split.
  { destruct (after_book_no_book_artist ps vs bs ss)
    as (_ & _ & _ & _ & _ & _ & Hx).
    unfold xlims in *; read_chart; rewrite ?Hx, ?app_nil_r.
    rewrite flat_map_all_nil; [reflexivity|].
    intros t; destruct (spread_at_cases (ask_data book) (bid_data book) t)
      as [->|(y1 & y2 & ->)]; reflexivity. }
  assert (Htimes : forall z,
             In z (map time (ask_data book) ++ map time (bid_data book))
             <-> exists d, in_book d book /\ (is_ask d \/ is_bid d) /\ time d = z).
  { intros z; rewrite in_app_iff, !in_map_iff; split.
    - intros [(d & <- & Hd)|(d & <- & Hd)]; exists d.
      + apply in_ask_data in Hd; tauto.
      + apply in_bid_data in Hd; tauto.
    - intros (d & Hd & [Hs|Hs] & <-).
      + left; exists d; split; [reflexivity|now apply in_ask_data].
      + right; exists d; split; [reflexivity|now apply in_bid_data]. }
  destruct (map time (ask_data book) ++ map time (bid_data book))
    as [|x l] eqn:E; [discriminate|].
  cbn in Hlo, Hhi; injection Hlo as <-; injection Hhi as <-.
  destruct (fold_min_spec l x) as [Hmin Hlb], (fold_max_spec l x) as [Hmax Hub].
  repeat split.
  - now apply Htimes.
  - now apply Htimes.
  - apply Hlb, Htimes; eauto.
  - apply Hub, Htimes; eauto.
Qed.

Lemma xlim_spans_times_witness :
  let tr := fst (run (plot_order_flow example_book None None None None)) in
  exists lo hi,
    xlims tr = [(lo, hi)]
    /\ (exists d, in_book d example_book /\ (is_ask d \/ is_bid d) /\ time d = lo)
    /\ (exists d, in_book d example_book /\ (is_ask d \/ is_bid d) /\ time d = hi)
    /\ forall d, in_book d example_book -> is_ask d \/ is_bid d ->
                 lo <= time d <= hi.
Proof.
  apply (xlim_spans_times example_book None None None None);
    [apply example_book_levels | apply example_book_levels | discriminate].
Defined.

(** ** Drawing order of gridlines and fills *)

Lemma strictly_sorted_of_NoDup (l : list Z) :
  StronglySorted (fun x y => is_true (x <=? y)%Z) l -> NoDup l ->
  StronglySorted Z.lt l.
Proof.
  induction 1 as [|x l Hl IH Hx]; intros Hnd; constructor.
  - apply IH; now inversion Hnd.
  - inversion Hnd as [|? ? Hnotin _]; subst.
    rewrite Forall_forall in *; intros y Hy.
    specialize (Hx y Hy); apply Z.leb_le in Hx.
    assert (x <> y) by (intros ->; contradiction).
    lia.
Qed.

Lemma sorted_set_ascending (l : list Z) :
  StronglySorted Z.lt (Py.sorted (Py.set l)).
Proof.
  apply strictly_sorted_of_NoDup; [|apply sorted_set_NoDup].
  unfold Py.sorted; apply Py.ZSort.StronglySorted_sort.
  intros x y z Hxy Hyz; unfold Py.ZOrder.leb, is_true in *.
  rewrite Z.leb_le in *; lia.
Qed.

Lemma StronglySorted_filter {A} (R : A -> A -> Prop) (p : A -> bool) (l : list A) :
  StronglySorted R l -> StronglySorted R (filter p l).
Proof.
  induction 1 as [|x l Hl IH Hx]; cbn; [constructor|].
  destruct (p x); [constructor|]; trivial.
  rewrite Forall_forall in *; intros y Hy; apply Hx.
  apply filter_In in Hy; tauto.
Qed.

Lemma fill_extents_spread (asks bids : list Level) (ts : list Z) :
  fill_extents (flat_map (spread_at asks bids) ts)
  = map fill_x
        (filter (fun t => match spread_at asks bids t with
                          | [] => false
                          | _ => true
                          end) ts).
Proof.
  unfold fill_extents, fills.
  induction ts as [|t ts IH]; [reflexivity|].
  cbn [flat_map filter]; rewrite flat_map_app, map_app, IH.
  destruct (spread_at_cases asks bids t) as [->|(y1 & y2 & ->)]; reflexivity.
Qed.

(** Whatever the book, the gridlines are drawn in strictly ascending order of
    price. *)
Theorem gridlines_ascending (book : list Snapshot) (ps vs bs ss : option (list Z)) :
  StronglySorted Z.lt (gridlines (fst (run (plot_order_flow book ps vs bs ss)))).
Proof.
  destruct (run_cases book ps vs bs ss)
    as [(e & ->)|(m & lo & hi & _ & _ & ->)]; cbn [fst].
  - constructor.
  - rewrite gridlines_chart; apply sorted_set_ascending.
Qed.

(** For a book whose ask and bid times are below 2^52 in absolute value (so
    that the half-integers around them are exact), the fills are drawn for a
    strictly ascending sequence of such time steps: each fill spans
    [t - 1/2, t + 1/2] for its step [t], no step is filled twice, and
    earlier steps are filled first. *)
Theorem fills_ascending (book : list Snapshot) (ps vs bs ss : option (list Z)) :
  (forall d, in_book d book -> is_ask d \/ is_bid d -> half_steps_exact (time d)) ->
  exists ts,
    StronglySorted Z.lt ts
    /\ Forall half_steps_exact ts
    /\ fill_extents (fst (run (plot_order_flow book ps vs bs ss))) = map fill_x ts.
Proof.
  intros Hexact.
  destruct (run_cases book ps vs bs ss)
    as [(e & ->)|(m & lo & hi & _ & _ & ->)]; cbn [fst].
  - exists []; split; [constructor|split; [constructor|reflexivity]].
  - unfold fill_extents; rewrite fills_chart.
    fold (fill_extents
            (flat_map (spread_at (ask_data book) (bid_data book))
               (Py.sorted (Py.set (map time (ask_data book)
                                   ++ map time (bid_data book)))))).
    rewrite fill_extents_spread; eexists; split; [|split; [|reflexivity]].
    + apply StronglySorted_filter, sorted_set_ascending.
    + apply Forall_forall; intros t Ht.
      apply filter_In in Ht; destruct Ht as [Ht _].
      apply sorted_set_In, in_app_iff in Ht.
      rewrite !in_map_iff in Ht.
      destruct Ht as [(d & <- & Hd)|(d & <- & Hd)].
      * apply in_ask_data in Hd; apply Hexact; tauto.
      * apply in_bid_data in Hd; apply Hexact; tauto.
Qed.

Lemma fills_ascending_witness :
  exists ts,
    StronglySorted Z.lt ts
    /\ Forall half_steps_exact ts
    /\ fill_extents (fst (run (plot_order_flow example_book None None None None)))
       = map fill_x ts.
Proof.
  apply (fills_ascending example_book None None None None).
  intros d (snapshot & Hs & Hd) _; cbn in Hs.
  destruct Hs as [<-|[<-|[]]]; cbn in Hd;
    destruct Hd as [<-|[<-|[]]]; unfold half_steps_exact; cbn; lia.
Defined.

(** ** The price line and the trade markers *)

Lemma no_overlay_no_line (l : list artist) :
  forallb (fun a => negb (is_overlay a)) l = true ->
  price_lines l = []
  /\ forall c, marker_points c l = [].
Proof.
  induction l as [|a l IH]; cbn [forallb]; [split; reflexivity|].
  intros H; apply andb_prop in H; destruct H as [Ha Hl].
  destruct (IH Hl) as [IH1 IH2]; unfold price_lines, marker_points in *.
  split; [|intros c; specialize (IH2 c)]; cbn [flat_map];
    destruct a; try discriminate Ha; cbn [app]; assumption.
Qed.

Lemma price_lines_chart asks bids m lo hi ps vs bs ss :
  price_lines (book_chart asks bids m lo hi ++ after_book ps vs bs ss)
  = price_lines (overlay ps vs bs ss)
  /\ forall c,
       marker_points c (book_chart asks bids m lo hi ++ after_book ps vs bs ss)
       = marker_points c (overlay ps vs bs ss).
Proof.
  destruct (no_overlay_no_line _ (book_chart_no_overlay asks bids m lo hi))
    as [H1 H2].
  unfold after_book, closing, price_lines, marker_points in *;
    split; [|intros c; specialize (H2 c)];
    rewrite !flat_map_app; [rewrite H1|rewrite H2];
    destruct (overlay_outcome ps vs bs ss); cbn [flat_map app];
    now rewrite app_nil_r.
Qed.

(** Lines 80-87 with a non-empty price sequence: the price line, then
    nothing but scatter calls at the points of the price line, the red one
    only after the green one. *)
Lemma overlay_price_line (p : list Z) (vs bs ss : option (list Z)) :
  p <> [] ->
  exists rest,
    overlay (Some p) vs bs ss = Plot (steps (List.length p)) p :: rest
    /\ price_lines rest = []
    /\ (forall c xy, In xy (marker_points c rest) ->
                     xy = (steps (List.length p), p))
    /\ (marker_points red rest <> [] -> marker_points green rest <> [])
    /\ (Py.truthy vs && Py.truthy bs && Py.truthy ss = false -> rest = []).
Proof.
  intros Hp.
  assert (Hline : forall vs' bs' ss',
             Py.truthy vs' && Py.truthy bs' && Py.truthy ss' = false ->
             overlay (Some p) vs' bs' ss' = [Plot (steps (List.length p)) p]).
  { intros vs' bs' ss' Hf; unfold overlay, plot_prices.
    destruct p as [|a p]; [congruence|].
    unfold Py.enumerate.
    destruct (enumerate_from_steps (a :: p) 0) as [Hx Hy].
    change (Z.of_nat 0) with 0 in Hx, Hy.
    set (xy := map _ (Py.enumerate_from 0 (a :: p))) in *.
    assert (Hxy : Py.unzip2 xy = inr (map fst xy, map snd xy))
      by (subst xy; reflexivity).
    rewrite Hxy, bind_lift_ok; cbv beta iota.
    rewrite Hx, Hy; fold (steps (List.length (a :: p))).
    rewrite bind_draw.
    destruct vs' as [[|v vs']|], bs' as [[|b bs']|], ss' as [[|s ss']|];
      try discriminate Hf; reflexivity. }
  destruct (Py.truthy vs && Py.truthy bs && Py.truthy ss) eqn:Ht.
  - destruct vs as [[|v0 v]|]; try discriminate Ht.
    destruct bs as [[|b0 b]|]; try discriminate Ht.
    destruct ss as [[|s0 s]|]; try discriminate Ht.
    destruct (overlay_full p (v0 :: v) (b0 :: b) (s0 :: s))
      as [-> _]; try discriminate; [exact Hp|].
    eexists; split; [reflexivity|].
    destruct (accepted_length _ (List.length (sizes (v0 :: v) (b0 :: b))));
      [destruct (accepted_length _ (List.length (sizes (v0 :: v) (s0 :: s))))|];
      (split; [reflexivity|]); (split; [|split; [|discriminate]]);
      try (intros c xy Hin; destruct c; cbn in Hin; intuition congruence);
      cbn; congruence.
  - exists []; rewrite (Hline vs bs ss Ht).
    split; [reflexivity|split; [reflexivity|]].
    split; [intros c xy []|split; [intros H; now destruct H|reflexivity]].
Qed.

(** For a book that is drawn and a non-empty [price_sequence], the price line
    is plotted exactly once, through the points (1, price_sequence[0]),
    (2, price_sequence[1]), ...: the steps are numbered from 1. *)
Theorem price_line_numbered_from_one
  (book : list Snapshot) (p : list Z) (vs bs ss : option (list Z)) :
  has_ask book -> has_bid book -> max_volume book <> inr 0 -> p <> [] ->
  price_lines (fst (run (plot_order_flow book (Some p) vs bs ss)))
  = [(steps (List.length p), p)].
Proof.
  intros Ha Hb Hnz Hp.
  destruct (book_drawn book (Some p) vs bs ss Ha Hb Hnz)
    as (m & lo & hi & _ & _ & _ & _ & Hrun).
  rewrite Hrun; cbn [fst].
  destruct (price_lines_chart (ask_data book) (bid_data book) m lo hi
              (Some p) vs bs ss) as [-> _].
  destruct (overlay_price_line p vs bs ss Hp) as (rest & -> & Hrest & _).
  unfold price_lines in *; cbn [flat_map app]; now rewrite Hrest.
Qed.

Lemma price_line_numbered_from_one_witness :
  price_lines (fst (run (plot_order_flow example_book (Some [100; 98; 98; 102])
                          None None None)))
  = [(steps 4, [100; 98; 98; 102])].
Proof.
  apply (price_line_numbered_from_one example_book [100; 98; 98; 102]
           None None None);
    [apply example_book_levels | apply example_book_levels
    | discriminate | discriminate].
Defined.

(** Whatever the inputs: if one of [volumes_sequence], [buy_sequence] and
    [sell_sequence] is missing or empty, no trade marker is drawn; every
    scatter call that is made uses exactly the coordinates of the one price
    line; and red markers are drawn only after green ones. *)
Theorem markers_need_all_sequences
  (book : list Snapshot) (ps vs bs ss : option (list Z)) :
  let tr := fst (run (plot_order_flow book ps vs bs ss)) in
  (Py.truthy vs && Py.truthy bs && Py.truthy ss = false ->
   marker_points green tr = [] /\ marker_points red tr = [])
  /\ (forall c xy, In xy (marker_points c tr) -> price_lines tr = [xy])
  /\ (marker_points red tr <> [] -> marker_points green tr <> []).
Proof.
  intros tr; subst tr.
  destruct (run_cases book ps vs bs ss)
    as [(e & ->)|(m & lo & hi & _ & _ & ->)]; cbn [fst].
  { split; [split; reflexivity|split; [intros c xy []|intros H; now destruct H]]. }
  destruct (price_lines_chart (ask_data book) (bid_data book) m lo hi
              ps vs bs ss) as [Hpl Hm].
  set (tr := book_chart (ask_data book) (bid_data book) m lo hi
             ++ after_book ps vs bs ss) in *.
  destruct ps as [[|p0 p]|].
  - assert (Hmc : forall c, marker_points c tr = []) by (intros c; now rewrite Hm).
    rewrite !Hmc.
    split; [split; reflexivity|split; [|intros H; now destruct H]].
    intros c xy Hin; rewrite Hmc in Hin; destruct Hin.
  - destruct (overlay_price_line (p0 :: p) vs bs ss)
      as (rest & Eov & Hline & Hat & Hred & Hnone); [discriminate|].
    assert (Hmc : forall c, marker_points c tr = marker_points c rest)
      by (intros c; rewrite Hm, Eov; reflexivity).
    assert (Hp : price_lines tr = [(steps (List.length (p0 :: p)), p0 :: p)]).
    { rewrite Hpl, Eov; unfold price_lines in *; cbn [flat_map app].
      now rewrite Hline. }
    rewrite !Hmc.
    split; [intros Hf; rewrite (Hnone Hf); split; reflexivity|].
    split; [|exact Hred].
    intros c xy Hin; rewrite Hmc in Hin; rewrite (Hat c xy Hin); exact Hp.
  - assert (Hmc : forall c, marker_points c tr = []) by (intros c; now rewrite Hm).
    rewrite !Hmc.
    split; [split; reflexivity|split; [|intros H; now destruct H]].
    intros c xy Hin; rewrite Hmc in Hin; destruct Hin.
Qed.

(** ** Invariance under a change of volume unit *)

Lemma filter_side_scale (k : Z) (tag : string) (l : list Level) :
  filter (fun item => (side item =? tag)%string) (map (scale_level k) l)
  = map (scale_level k) (filter (fun item => (side item =? tag)%string) l).
Proof.
  induction l as [|d l IH]; [reflexivity|].
  cbn [map filter scale_level side].
  destruct (side d =? tag)%string; cbn [map]; now rewrite IH.
Qed.

Lemma ask_data_scale (k : Z) (book : list Snapshot) :
  ask_data (scale_volumes k book) = map (scale_level k) (ask_data book).
Proof.
  unfold ask_data, scale_volumes.
  induction book as [|snapshot book IH]; [reflexivity|].
  cbn [map flat_map]; now rewrite map_app, IH, filter_side_scale.
Qed.

Lemma bid_data_scale (k : Z) (book : list Snapshot) :
  bid_data (scale_volumes k book) = map (scale_level k) (bid_data book).
Proof.
  unfold bid_data, scale_volumes.
  induction book as [|snapshot book IH]; [reflexivity|].
  cbn [map flat_map]; now rewrite map_app, IH, filter_side_scale.
Qed.

Lemma fold_max_scale (k : Z) (l : list Z) (x : Z) :
  0 < k ->
  fold_left Z.max (map (Z.mul k) l) (k * x) = k * fold_left Z.max l x.
Proof.
  intros Hk; revert x; induction l as [|y l IH]; intros x; [reflexivity|].
  cbn [map fold_left].
  rewrite Z.mul_max_distr_nonneg_l by lia; apply IH.
Qed.

Lemma py_max_scale (k : Z) (l : list Level) (a : Z) :
  0 < k ->
  Py.max (map volume l) = inr a ->
  Py.max (map volume (map (scale_level k) l)) = inr (k * a).
Proof.
  intros Hk; destruct l as [|d l]; [discriminate|].
  cbn [map Py.max scale_level volume]; intros [= <-]; f_equal.
  rewrite map_map; cbn [scale_level volume].
  rewrite <- (map_map volume (Z.mul k)); now apply fold_max_scale.
Qed.

Lemma max_volume_scale (k : Z) (book : list Snapshot) (m : Z) :
  0 < k ->
  max_volume book = inr m ->
  max_volume (scale_volumes k book) = inr (k * m).
Proof.
  intros Hk Hm.
  destruct (max_volume_inv _ _ Hm) as (a & b & Ha & Hb & -> & _).
  unfold max_volume; rewrite ask_data_scale, bid_data_scale.
  rewrite (py_max_scale k _ a Hk Ha), (py_max_scale k _ b Hk Hb).
  now rewrite Z.mul_max_distr_nonneg_l by lia.
Qed.

Lemma normalised_scale (k v m : Z) :
  k <> 0 -> m <> 0 ->
  Qred (inject_Z (k * v) / inject_Z (k * m)) = Qred (inject_Z v / inject_Z m).
Proof.
  intros Hk Hm; apply Qred_complete.
  rewrite !inject_Z_mult.
  assert (Hk' : ~ (inject_Z k == 0)%Q)
    by (intros E; apply Hk, inject_Z_injective; exact E).
  assert (Hm' : ~ (inject_Z m == 0)%Q)
    by (intros E; apply Hm, inject_Z_injective; exact E).
  field; split; assumption.
Qed.

Lemma spread_at_scale (k : Z) (asks bids : list Level) (t : Z) :
  spread_at (map (scale_level k) asks) (map (scale_level k) bids) t
  = spread_at asks bids t.
Proof.
  assert (H : forall l,
             map price (filter (fun d => (time d =? t)%Z) (map (scale_level k) l))
             = map price (filter (fun d => (time d =? t)%Z) l)).
  { induction l as [|d l IH]; [reflexivity|].
    cbn [map filter scale_level time].
    destruct (time d =? t)%Z; cbn [map scale_level price]; now rewrite IH. }
  unfold spread_at; now rewrite !H.
Qed.

Lemma book_chart_scale (k : Z) (asks bids : list Level) (m lo hi : Z) :
  k <> 0 -> m <> 0 ->
  book_chart (map (scale_level k) asks) (map (scale_level k) bids) (k * m) lo hi
  = book_chart asks bids m lo hi.
Proof.
  intros Hk Hm; unfold book_chart.
  rewrite !map_map; cbn [scale_level time price volume].
  rewrite (map_ext (fun d => Bar (time d)
                               (Qred (inject_Z (k * volume d) / inject_Z (k * m)))
                               (price d) blue)
                   (fun d => Bar (time d)
                               (Qred (inject_Z (volume d) / inject_Z m))
                               (price d) blue))
    by (intros d; now rewrite normalised_scale).
  rewrite (map_ext (fun d => Bar (time d)
                               (- Qred (inject_Z (k * volume d) / inject_Z (k * m)))
                               (price d) red)
                   (fun d => Bar (time d)
                               (- Qred (inject_Z (volume d) / inject_Z m))
                               (price d) red))
    by (intros d; now rewrite normalised_scale).
  rewrite (flat_map_ext _ _ (spread_at_scale k asks bids)).
  reflexivity.
Qed.

(** Multiplying every volume of the book by the same positive integer
    changes nothing: the call has the same outcome and draws the same chart,
    because the bars only show volumes relative to the largest one. *)
Theorem volume_unit_irrelevant
  (k : Z) (book : list Snapshot) (ps vs bs ss : option (list Z)) :
  0 < k ->
  run (plot_order_flow (scale_volumes k book) ps vs bs ss)
  = run (plot_order_flow book ps vs bs ss).
Proof.
  intros Hk.
  destruct (ask_data book) as [|a la] eqn:Ea.
  { rewrite !plot_order_flow_missing_side; trivial; left; trivial.
    now rewrite ask_data_scale, Ea. }
  destruct (bid_data book) as [|b lb] eqn:Eb.
  { rewrite !plot_order_flow_missing_side; trivial; right; trivial.
    now rewrite bid_data_scale, Eb. }
  destruct (max_volume_ok book) as [m Hm]; [congruence..|].
  pose proof (max_volume_scale k book m Hk Hm) as Hkm.
  destruct (Z.eq_dec m 0) as [->|Hnz].
  { rewrite Z.mul_0_r in Hkm.
    now rewrite !plot_order_flow_zero_volume. }
  destruct (plot_order_flow_run book ps vs bs ss m Hm Hnz)
    as (lo & hi & Hlo & Hhi & ->).
  destruct (plot_order_flow_run (scale_volumes k book) ps vs bs ss (k * m) Hkm
              ltac:(lia)) as (lo' & hi' & Hlo' & Hhi' & ->).
  rewrite ask_data_scale, bid_data_scale in *.
  rewrite !map_map in Hlo', Hhi'; cbn [scale_level time] in Hlo', Hhi'.
  pose proof (eq_trans (eq_sym Hlo') Hlo) as Elo.
  pose proof (eq_trans (eq_sym Hhi') Hhi) as Ehi.
  injection Elo as ->; injection Ehi as ->.
  rewrite book_chart_scale by lia; reflexivity.
Qed.

Lemma volume_unit_irrelevant_witness :
  run (plot_order_flow (scale_volumes 3 example_book) (Some [100]) None None None)
  = run (plot_order_flow example_book (Some [100]) None None None).
Proof.
  apply (volume_unit_irrelevant 3 example_book (Some [100]) None None None); lia.
Defined.

(** ** Independence of the order of the Levels *)

Lemma filter_Permutation {A} (p : A -> bool) (l l' : list A) :
  Permutation l l' -> Permutation (filter p l) (filter p l').
Proof.
  induction 1 as [|x l l' _ IH|x y l|l l' l'' _ IH1 _ IH2]; cbn.
  - constructor.
  - destruct (p x); [now constructor|exact IH].
  - destruct (p x), (p y); try reflexivity; constructor.
  - now transitivity (filter p l').
Qed.

Lemma py_max_Permutation (l l' : list Z) :
  Permutation l l' -> Py.max l = Py.max l'.
Proof.
  intros HP; destruct l as [|x l], l' as [|x' l'].
  - reflexivity.
  - apply Permutation_nil in HP; discriminate.
  - apply Permutation_sym, Permutation_nil in HP; discriminate.
  - cbn; f_equal.
    destruct (fold_max_spec l x) as [Hin Hub], (fold_max_spec l' x') as [Hin' Hub'].
    apply (Permutation_in _ HP) in Hin.
    apply (Permutation_in _ (Permutation_sym HP)) in Hin'.
    specialize (Hub _ Hin'); specialize (Hub' _ Hin); lia.
Qed.

Lemma py_min_Permutation (l l' : list Z) :
  Permutation l l' -> Py.min l = Py.min l'.
Proof.
  intros HP; destruct l as [|x l], l' as [|x' l'].
  - reflexivity.
  - apply Permutation_nil in HP; discriminate.
  - apply Permutation_sym, Permutation_nil in HP; discriminate.
  - cbn; f_equal.
    destruct (fold_min_spec l x) as [Hin Hlb], (fold_min_spec l' x') as [Hin' Hlb'].
    apply (Permutation_in _ HP) in Hin.
    apply (Permutation_in _ (Permutation_sym HP)) in Hin'.
    specialize (Hlb _ Hin'); specialize (Hlb' _ Hin); lia.
Qed.

Lemma ascending_unique (l l' : list Z) :
  StronglySorted Z.lt l -> StronglySorted Z.lt l' ->
  (forall z, In z l <-> In z l') -> l = l'.
Proof.
  intros Hl; revert l'; induction Hl as [|x l Hl IH Hx]; intros l' Hl' Hsame.
  - destruct l' as [|y l']; [reflexivity|].
    destruct (proj2 (Hsame y) (or_introl eq_refl)).
  - destruct Hl' as [|y l' Hl' Hy].
    { destruct (proj1 (Hsame x) (or_introl eq_refl)). }
    rewrite Forall_forall in Hx, Hy.
    assert (x = y).
    { destruct (proj1 (Hsame x) (or_introl eq_refl)) as [E|Hin]; [now symmetry|].
      destruct (proj2 (Hsame y) (or_introl eq_refl)) as [E|Hin']; [exact E|].
      specialize (Hx _ Hin'); specialize (Hy _ Hin); lia. }
    subst y; f_equal; apply IH; [exact Hl'|].
    intros z; split; intros Hz.
    + destruct (proj1 (Hsame z) (or_intror Hz)) as [E|Hin]; [|exact Hin].
      specialize (Hx _ Hz); lia.
    + destruct (proj2 (Hsame z) (or_intror Hz)) as [E|Hin]; [|exact Hin].
      specialize (Hy _ Hz); lia.
Qed.

Lemma sorted_set_Permutation (l l' : list Z) :
  Permutation l l' -> Py.sorted (Py.set l) = Py.sorted (Py.set l').
Proof.
  intros HP; apply ascending_unique; try apply sorted_set_ascending.
  intros z; rewrite !sorted_set_In; split; apply Permutation_in;
    [exact HP|now symmetry].
Qed.

Lemma spread_at_Permutation (asks asks' bids bids' : list Level) (t : Z) :
  Permutation asks asks' -> Permutation bids bids' ->
  spread_at asks bids t = spread_at asks' bids' t.
Proof.
  intros Ha Hb; unfold spread_at.
  pose proof (py_min_Permutation _ _
                (Permutation_map price
                   (filter_Permutation (fun d => (time d =? t)%Z) _ _ Ha))) as Emin.
  pose proof (py_max_Permutation _ _
                (Permutation_map price
                   (filter_Permutation (fun d => (time d =? t)%Z) _ _ Hb))) as Emax.
  destruct (map price (filter _ asks)) as [|a la],
           (map price (filter _ asks')) as [|a' la']; try discriminate Emin;
    [reflexivity|].
  destruct (map price (filter _ bids)) as [|b lb],
           (map price (filter _ bids')) as [|b' lb']; try discriminate Emax;
    [reflexivity|].
  cbn in Emin, Emax; injection Emin as ->; injection Emax as ->; reflexivity.
Qed.

Lemma xlims_chart asks bids m lo hi ps vs bs ss :
  xlims (book_chart asks bids m lo hi ++ after_book ps vs bs ss)
  = [(lo, hi)].
Proof.
  destruct (after_book_no_book_artist ps vs bs ss)
    as (_ & _ & _ & _ & _ & _ & Hx).
  unfold xlims in *; read_chart; rewrite ?Hx, ?app_nil_r.
  rewrite flat_map_all_nil; [reflexivity|].
  intros t; destruct (spread_at_cases asks bids t) as [->|(y1 & y2 & ->)];
    reflexivity.
Qed.

(** Reordering the Levels of the book (within or across snapshots) changes
    neither the outcome of the call, nor the gridlines, nor the spread fills,
    nor the limits of the x axis: only the order of the bars can change. *)
Theorem level_order_irrelevant
  (book book' : list Snapshot) (ps vs bs ss : option (list Z)) :
  Permutation (flatten book) (flatten book') ->
  let r := run (plot_order_flow book ps vs bs ss) in
  let r' := run (plot_order_flow book' ps vs bs ss) in
  snd r = snd r'
  /\ gridlines (fst r) = gridlines (fst r')
  /\ fills (fst r) = fills (fst r')
  /\ xlims (fst r) = xlims (fst r').
Proof.
  intros HP r r'; subst r r'.
  assert (Ha : Permutation (ask_data book) (ask_data book'))
    by (rewrite !ask_data_flatten; now apply filter_Permutation).
  assert (Hb : Permutation (bid_data book) (bid_data book'))
    by (rewrite !bid_data_flatten; now apply filter_Permutation).
  assert (Hmv : max_volume book = max_volume book').
  { unfold max_volume.
    rewrite (py_max_Permutation _ _ (Permutation_map volume Ha)).
    now rewrite (py_max_Permutation _ _ (Permutation_map volume Hb)). }
  destruct (ask_data book) as [|a la] eqn:Ea.
  { apply Permutation_nil in Ha.
    rewrite !plot_order_flow_missing_side by (left; assumption); auto. }
  destruct (bid_data book) as [|b lb] eqn:Eb.
  { apply Permutation_nil in Hb.
    rewrite !plot_order_flow_missing_side by (right; assumption); auto. }
  destruct (max_volume_ok book) as [m Hm]; [congruence..|].
  destruct (Z.eq_dec m 0) as [->|Hnz].
  { rewrite !plot_order_flow_zero_volume by congruence; auto. }
  destruct (plot_order_flow_run book ps vs bs ss m Hm Hnz)
    as (lo & hi & Hlo & Hhi & ->).
  rewrite Hmv in Hm.
  destruct (plot_order_flow_run book' ps vs bs ss m Hm Hnz)
    as (lo' & hi' & Hlo' & Hhi' & ->).
  rewrite <- Ea in Ha; rewrite <- Eb in Hb.
  assert (Ht : Permutation (map time (ask_data book) ++ map time (bid_data book))
                           (map time (ask_data book') ++ map time (bid_data book')))
    by (apply Permutation_app; now apply Permutation_map).
  assert (Hp : Permutation (map price (ask_data book) ++ map price (bid_data book))
                           (map price (ask_data book') ++ map price (bid_data book')))
    by (apply Permutation_app; now apply Permutation_map).
  rewrite (py_min_Permutation _ _ Ht), Hlo' in Hlo.
  rewrite (py_max_Permutation _ _ Ht), Hhi' in Hhi.
  injection Hlo as <-; injection Hhi as <-.
  cbn [fst snd]; rewrite !gridlines_chart, !fills_chart, !xlims_chart.
  rewrite (sorted_set_Permutation _ _ Hp), (sorted_set_Permutation _ _ Ht).
  rewrite (flat_map_ext _ _ (fun t => spread_at_Permutation _ _ _ _ t Ha Hb)).
  auto.
Qed.

Lemma level_order_irrelevant_witness :
  let r := run (plot_order_flow example_book None None None None) in
  let r' := run (plot_order_flow [rev (flatten example_book)] None None None None) in
  snd r = snd r'
  /\ gridlines (fst r) = gridlines (fst r')
  /\ fills (fst r) = fills (fst r')
  /\ xlims (fst r) = xlims (fst r').
Proof.
  apply (level_order_irrelevant example_book [rev (flatten example_book)]).
  unfold flatten at 2; cbn [List.concat]; rewrite app_nil_r; apply Permutation_rev.
Defined.
